(** * Polymarket MCP server: a shallow embedding of [polymarket_mcp/server.py]

    The server exposes three tools ([scrape-polymarket], [get-news-headlines],
    [get-news-everything]) through one dispatcher, [handle_call_tool].  This
    development embeds the Python source function by function:

    - Python values coming out of [json.loads] / [resp.json()] are the
      inductive [pyval]; dictionaries are association lists in insertion
      order, as Python dictionaries are insertion ordered;
    - raising code lives in the error monad [result]; code that also talks to
      the network lives in [io], which additionally records every outbound
      request;
    - third-party library functions whose code is not part of the repository
      (BeautifulSoup's [find], [json.loads], [json.dumps], Python's [repr] of
      floats and strings) are the fields of the class [Runtime]. *)

From Stdlib Require Import String Ascii List ZArith Lia Bool Arith.
From Stdlib Require Import Floats.SpecFloat.
From Stdlib Require Import Numbers.DecimalString.
Import ListNotations.
Local Open Scope list_scope.
Local Open Scope string_scope.
Set Warnings "-register-all".

(** ** Python values *)

(** The values [json.loads] can return, plus nothing else: [None], [bool],
    [int], [float], [str], [list] and [dict] with string keys.  A [str] is a
    Rocq string, one [ascii] per character. *)
Inductive pyval : Type :=
| PNone
| PBool (b : bool)
| PInt (z : Z)
| PFloat (f : spec_float)
| PStr (s : string)
| PList (l : list pyval)
| PDict (d : list (string * pyval)).

Definition pydict : Type := list (string * pyval).

(** ** Exceptions *)

(** The [Exception] subclasses the modelled code can raise.  [OtherError]
    stands for any further [Exception] subclass raised inside a library
    ([requests.ConnectionError], [json.JSONDecodeError], [httpx] errors...). *)
Inductive exn : Type :=
| KeyError (key : pyval)
| IndexError (msg : string)
| TypeError (msg : string)
| AttributeError (msg : string)
| HTTPError (msg : string)
| OtherError (cls : string) (msg : string).

Inductive result (A : Type) : Type :=
| Ok (a : A)
| Raise (e : exn).
Arguments Ok {A} a.
Arguments Raise {A} e.

Definition bind {A B : Type} (m : result A) (f : A -> result B) : result B :=
  match m with
  | Ok a => f a
  | Raise e => Raise e
  end.

Declare Scope py_scope.
Delimit Scope py_scope with py.
Notation "x <- m ;; k" := (bind m (fun x => k))
  (at level 61, m at next level, right associativity) : py_scope.
Local Open Scope py_scope.

(** A [for] loop (or comprehension) whose body may raise: the first raising
    iteration aborts the loop. *)
Fixpoint mapM {A B : Type} (f : A -> result B) (l : list A) : result (list B) :=
  match l with
  | [] => Ok []
  | x :: xs =>
      y <- f x ;;
      ys <- mapM f xs ;;
      Ok (y :: ys)
  end.

(** ** Library functions outside the repository *)

Class Runtime : Type := {
  (** [repr] of a [float] (the shortest round-tripping decimal) *)
  float_repr : spec_float -> string;
  (** [repr] of a [str] (quoting and escaping) *)
  str_repr : string -> string;
  (** [BeautifulSoup(text, "html.parser").find("script", id="__NEXT_DATA__")]
      followed by [.string]: [None] when the page has no such element,
      [Some None] when the element's [.string] is [None] *)
  soup_find_next_data : string -> option (option string);
  json_loads : string -> result pyval;
  json_dumps : pyval -> result string
}.

(** ** Python primitives *)

Definition nl : string := String (ascii_of_nat 10) EmptyString.

Definition type_name (v : pyval) : string :=
  match v with
  | PNone => "NoneType"
  | PBool _ => "bool"
  | PInt _ => "int"
  | PFloat _ => "float"
  | PStr _ => "str"
  | PList _ => "list"
  | PDict _ => "dict"
  end.

(** Truth value testing, as used by [not x] and [if x]. *)
Definition truthy (v : pyval) : bool :=
  match v with
  | PNone => false
  | PBool b => b
  | PInt z => negb (Z.eqb z 0)
  | PFloat (S754_zero _) => false
  | PFloat _ => true
  | PStr s => negb (String.eqb s "")
  | PList l => match l with [] => false | _ => true end
  | PDict d => match d with [] => false | _ => true end
  end.

Definition is_dict (v : pyval) : bool :=
  match v with PDict _ => true | _ => false end.

(** [v == s] for a string literal [s]: only a [str] equals a [str]. *)
Definition eq_str (v : pyval) (s : string) : bool :=
  match v with PStr t => String.eqb t s | _ => false end.

Definition int_str (z : Z) : string := NilZero.string_of_int (Z.to_int z).

Section Repr.
Context {R : Runtime}.

Fixpoint py_repr (v : pyval) : string :=
  match v with
  | PNone => "None"
  | PBool true => "True"
  | PBool false => "False"
  | PInt z => int_str z
  | PFloat f => float_repr f
  | PStr s => str_repr s
  | PList l => "[" ++ String.concat ", " (map py_repr l) ++ "]"
  | PDict d =>
      "{" ++ String.concat ", "
               (map (fun kv => match kv with
                               | (k, x) => str_repr k ++ ": " ++ py_repr x
                               end) d) ++ "}"
  end.

(** [str(v)], which is what an f-string placeholder [{v}] renders. *)
Definition py_str (v : pyval) : string :=
  match v with
  | PStr s => s
  | _ => py_repr v
  end.

(** [str(e)] for an exception. *)
Definition exn_str (e : exn) : string :=
  match e with
  | KeyError k => py_repr k
  | IndexError m | TypeError m | AttributeError m | HTTPError m => m
  | OtherError _ m => m
  end.

End Repr.

(** Dictionary lookup: the first binding of the key. *)
Fixpoint dict_get (d : pydict) (k : string) : option pyval :=
  match d with
  | [] => None
  | (k', v) :: rest => if String.eqb k' k then Some v else dict_get rest k
  end.

(** [d[k] = v]: overwrite in place, or append a new binding. *)
Fixpoint dict_set (d : pydict) (k : string) (v : pyval) : pydict :=
  match d with
  | [] => [(k, v)]
  | (k', v') :: rest =>
      if String.eqb k' k then (k', v) :: rest else (k', v') :: dict_set rest k v
  end.

Definition no_attribute (v : pyval) (attr : string) : exn :=
  AttributeError ("'" ++ type_name v ++ "' object has no attribute '" ++ attr ++ "'").

(** [v.get(k, default)]: only a [dict] has the method. *)
Definition py_get (v : pyval) (k : string) (default : pyval) : result pyval :=
  match v with
  | PDict d => Ok (match dict_get d k with Some x => x | None => default end)
  | _ => Raise (no_attribute v "get")
  end.

Definition not_subscriptable (v : pyval) : exn :=
  TypeError ("'" ++ type_name v ++ "' object is not subscriptable").

(** [v[k]] for a string literal [k]. *)
Definition getitem_str (v : pyval) (k : string) : result pyval :=
  match v with
  | PDict d =>
      match dict_get d k with
      | Some x => Ok x
      | None => Raise (KeyError (PStr k))
      end
  | PList _ => Raise (TypeError "list indices must be integers or slices, not str")
  | PStr _ => Raise (TypeError "string indices must be integers, not 'str'")
  | _ => Raise (not_subscriptable v)
  end.

Definition chars (s : string) : list pyval :=
  map (fun c => PStr (String c EmptyString)) (list_ascii_of_string s).

(** [v[i]] for a non-negative integer [i].  A [dict] decoded from JSON has
    only string keys, so an integer key is never found. *)
Definition getitem_int (v : pyval) (i : nat) : result pyval :=
  match v with
  | PList l =>
      match nth_error l i with
      | Some x => Ok x
      | None => Raise (IndexError "list index out of range")
      end
  | PStr s =>
      match nth_error (chars s) i with
      | Some x => Ok x
      | None => Raise (IndexError "string index out of range")
      end
  | PDict _ => Raise (KeyError (PInt (Z.of_nat i)))
  | _ => Raise (not_subscriptable v)
  end.

(** [v[:n]].  Slicing a [dict] raises [TypeError] up to Python 3.11. *)
Definition slice_to (v : pyval) (n : nat) : result pyval :=
  match v with
  | PList l => Ok (PList (firstn n l))
  | PStr s => Ok (PStr (substring 0 (Nat.min n (String.length s)) s))
  | PDict _ => Raise (TypeError "unhashable type: 'slice'")
  | _ => Raise (not_subscriptable v)
  end.

(** [len(v)]. *)
Definition py_len (v : pyval) : result nat :=
  match v with
  | PList l => Ok (List.length l)
  | PStr s => Ok (String.length s)
  | PDict d => Ok (List.length d)
  | _ => Raise (TypeError ("object of type '" ++ type_name v ++ "' has no len()"))
  end.

(** The items a [for] loop over [v] visits. *)
Definition py_iter (v : pyval) : result (list pyval) :=
  match v with
  | PList l => Ok l
  | PStr s => Ok (chars s)
  | PDict d => Ok (map (fun kv => PStr (fst kv)) d)
  | _ => Raise (TypeError ("'" ++ type_name v ++ "' object is not iterable"))
  end.

(** The items of a sequence ([list] or [str]), the two kinds of value that
    support both [len] and indexing by position. *)
Definition seq_items (v : pyval) : option (list pyval) :=
  match v with
  | PList l => Some l
  | PStr s => Some (chars s)
  | _ => None
  end.

(** The dictionary [{"outcome": o, "probability": p}]. *)
Definition outcome_prob (op : pyval * pyval) : pyval :=
  PDict [("outcome", fst op); ("probability", snd op)].

(** ** The outside world and the [io] monad *)

(** What [requests.get] hands back: the fields of the response the code (and
    [raise_for_status]) reads. *)
Record response : Type := {
  status_code : Z;
  reason : string;
  url : string;
  body_text : string
}.

(** One outbound GET: the URL and the [params] dictionary. *)
Record request : Type := {
  req_url : string;
  req_params : pydict
}.

(** The environment of one invocation: the network as seen through
    [requests.get] and through [httpx]'s [client.get(...)] followed by
    [resp.json()], and the process environment read by [os.getenv]. *)
Record world : Type := {
  requests_get : string -> result response;
  httpx_get_json : string -> pydict -> result pyval;
  os_getenv : string -> option string
}.

(** A computation that may raise and that logs the requests it sent. *)
Definition io (A : Type) : Type := (list request * result A)%type.

Definition io_ret {A : Type} (a : A) : io A := ([], Ok a).

Definition io_bind {A B : Type} (m : io A) (f : A -> io B) : io B :=
  match m with
  | (log, Ok a) => let (log', r) := f a in ((log ++ log')%list, r)
  | (log, Raise e) => (log, Raise e)
  end.

Definition lift {A : Type} (r : result A) : io A := ([], r).

(** [try: m except Exception as e: handler e]. *)
Definition try_except {A : Type} (m : io A) (handler : exn -> io A) : io A :=
  match m with
  | (log, Ok a) => (log, Ok a)
  | (log, Raise e) => let (log', r) := handler e in ((log ++ log')%list, r)
  end.

Notation "x <~ m ;; k" := (io_bind m (fun x => k))
  (at level 61, m at next level, right associativity) : py_scope.

Definition sent {A : Type} (m : io A) : list request := fst m.
Definition outcome {A : Type} (m : io A) : result A := snd m.

(** [requests.get(url)]. *)
Definition do_requests_get (w : world) (u : string) : io response :=
  ([{| req_url := u; req_params := [] |}], requests_get w u).

(** [client_http.get(url, params=params)] then [resp.json()]. *)
Definition do_httpx_get (w : world) (u : string) (params : pydict) : io pyval :=
  ([{| req_url := u; req_params := params |}], httpx_get_json w u params).

(** [response.raise_for_status()] of the [requests] library. *)
Definition raise_for_status (r : response) : result unit :=
  if (400 <=? status_code r)%Z && (status_code r <? 500)%Z then
    Raise (HTTPError (int_str (status_code r) ++ " Client Error: " ++ reason r
                        ++ " for url: " ++ url r))
  else if (500 <=? status_code r)%Z && (status_code r <? 600)%Z then
    Raise (HTTPError (int_str (status_code r) ++ " Server Error: " ++ reason r
                        ++ " for url: " ++ url r))
  else Ok tt.

(** ** [scrape_polymarket] (server.py, lines 20-47) *)

Definition BASE_URL : string := "https://polymarket.com".

(** Line 29: the fixed path down to the events. *)
Definition events_of (data : pyval) : result pyval :=
  props <- getitem_str data "props" ;;
  pageProps <- getitem_str props "pageProps" ;;
  dehydratedState <- getitem_str pageProps "dehydratedState" ;;
  queries <- getitem_str dehydratedState "queries" ;;
  query0 <- getitem_int queries 0 ;;
  state <- getitem_str query0 "state" ;;
  data' <- getitem_str state "data" ;;
  pages <- getitem_str data' "pages" ;;
  page0 <- getitem_int pages 0 ;;
  getitem_str page0 "events".

(** Lines 38-41: the comprehension over [range(min(len(outcomes), len(prices)))]. *)
Definition outcome_probs (outcomes prices : pyval) : result (list pyval) :=
  n_outcomes <- py_len outcomes ;;
  n_prices <- py_len prices ;;
  mapM (fun i =>
          o <- getitem_int outcomes i ;;
          p <- getitem_int prices i ;;
          Ok (PDict [("outcome", o); ("probability", p)]))
       (seq 0 (Nat.min n_outcomes n_prices)).

Section Scrape.
Context {R : Runtime}.

(** Lines 32-46: the body of the loop, for one [event]. *)
Definition summarise_event (event : pyval) : result pyval :=
  title <- py_get event "title" (PStr "") ;;
  slug <- py_get event "slug" (PStr "") ;;
  let url := BASE_URL ++ "/market/" ++ py_str slug in
  markets <- py_get event "markets" (PList []) ;;
  market_info <- getitem_int markets 0 ;;
  outcomes <- py_get market_info "outcomes" (PList []) ;;
  prices <- py_get market_info "outcomePrices" (PList []) ;;
  probs <- outcome_probs outcomes prices ;;
  Ok (PDict [("title", title); ("url", PStr url); ("outcomes", PList probs)]).

(** Lines 29-47: from the decoded JSON to the list of results. *)
Definition extract_markets (data : pyval) : result (list pyval) :=
  events <- events_of data ;;
  first20 <- slice_to events 20 ;;
  items <- py_iter first20 ;;
  mapM summarise_event items.

(** Lines 25-26: [script_tag.string] on a missing element, then
    [json.loads]. *)
Definition load_next_data (html : string) : result pyval :=
  match soup_find_next_data html with
  | None => Raise (no_attribute PNone "string")
  | Some None =>
      Raise (TypeError
               "the JSON object must be str, bytes or bytearray, not NoneType")
  | Some (Some s) => json_loads s
  end.

(** Lines 21-26: fetch the page and decode the embedded JSON. *)
Definition fetch_next_data (w : world) : io pyval :=
  response <~ do_requests_get w BASE_URL ;;
  _ <~ lift (raise_for_status response) ;;
  lift (load_next_data (body_text response)).

Definition scrape_polymarket (w : world) : io (list pyval) :=
  data <~ fetch_next_data w ;;
  lift (extract_markets data).

End Scrape.

(** ** [list_tools] (server.py, lines 50-120) *)

Record Tool : Type := {
  name : string;
  description : string;
  inputSchema : pyval
}.

Definition list_tools : list Tool :=
  [ {| name := "scrape-polymarket";
       description := "Scrape latest prediction markets from Polymarket homepage";
       inputSchema :=
         PDict [("type", PStr "object");
                ("properties", PDict []);
                ("additionalProperties", PBool false)] |};
    {| name := "get-news-headlines";
       description := "Get top news headlines using NewsAPI.org";
       inputSchema :=
         PDict [("type", PStr "object");
                ("properties",
                 PDict [("query",
                         PDict [("type", PStr "string");
                                ("description", PStr "Keywords or phrase to search for in the news headlines.")]);
                        ("language",
                         PDict [("type", PStr "string");
                                ("description", PStr "2-letter ISO-639-1 code of the language you want to get headlines for.");
                                ("default", PStr "en")]);
                        ("pageSize",
                         PDict [("type", PStr "integer");
                                ("description", PStr "Number of results to return per page (max 100)");
                                ("default", PInt 5);
                                ("minimum", PInt 1);
                                ("maximum", PInt 100)])]);
                ("required", PList [PStr "query"])] |};
    {| name := "get-news-everything";
       description := "Get news articles using NewsAPI.org's everything endpoint (broader search).";
       inputSchema :=
         PDict [("type", PStr "object");
                ("properties",
                 PDict [("query",
                         PDict [("type", PStr "string");
                                ("description", PStr "Keywords or phrase to search for in the news articles.")]);
                        ("language",
                         PDict [("type", PStr "string");
                                ("description", PStr "2-letter ISO-639-1 code of the language you want to get articles for.");
                                ("default", PStr "en")]);
                        ("pageSize",
                         PDict [("type", PStr "integer");
                                ("description", PStr "Number of results to return per page (max 100)");
                                ("default", PInt 5);
                                ("minimum", PInt 1);
                                ("maximum", PInt 100)]);
                        ("from",
                         PDict [("type", PStr "string");
                                ("description", PStr "A date and optional time for the oldest article allowed. (YYYY-MM-DD)")]);
                        ("sortBy",
                         PDict [("type", PStr "string");
                                ("description", PStr "The order to sort the articles in. Possible options: relevancy, popularity, publishedAt");
                                ("enum", PList [PStr "relevancy"; PStr "popularity"; PStr "publishedAt"]);
                                ("default", PStr "publishedAt")])]);
                ("required", PList [PStr "query"])] |} ].

(** The default a tool's schema declares for one of its parameters. *)
Definition declared_default (tool param : string) : option pyval :=
  match find (fun t => String.eqb (name t) tool) list_tools with
  | Some t =>
      match inputSchema t with
      | PDict schema =>
          match dict_get schema "properties" with
          | Some (PDict props) =>
              match dict_get props param with
              | Some (PDict p) => dict_get p "default"
              | _ => None
              end
          | _ => None
          end
      | _ => None
      end
  | None => None
  end.

(** ** [format_news_headlines] (server.py, lines 124-144) *)

Section Format.
Context {R : Runtime}.

(** Lines 136-141: the text appended for one [article]. *)
Definition format_article (article : pyval) : result string :=
  title <- py_get article "title" (PStr "N/A") ;;
  source <- py_get article "source" (PDict []) ;;
  source_name <- py_get source "name" (PStr "N/A") ;;
  published <- py_get article "publishedAt" (PStr "N/A") ;;
  link <- py_get article "url" (PStr "N/A") ;;
  Ok ("Title: " ++ py_str title ++ nl
      ++ "Source: " ++ py_str source_name ++ nl
      ++ "Published: " ++ py_str published ++ nl
      ++ "URL: " ++ py_str link ++ nl ++ "---" ++ nl).

(** Lines 127-142: the body of the [try]. *)
Definition format_body (news_data : pyval) : result string :=
  if negb (truthy news_data) || negb (is_dict news_data) then
    Ok "No news data available."
  else
    status <- py_get news_data "status" PNone ;;
    if negb (eq_str status "ok") then
      message <- py_get news_data "message" (PStr "Unknown error") ;;
      Ok ("NewsAPI error: " ++ py_str message)
    else
      articles <- py_get news_data "articles" (PList []) ;;
      if negb (truthy articles) then Ok "No news articles found."
      else
        items <- py_iter articles ;;
        formatted <- mapM format_article items ;;
        Ok (String.concat nl (("Top News Headlines:" ++ nl) :: formatted)).

(** The whole function: [except Exception as e] turns a raise into text. *)
Definition format_news_headlines (news_data : pyval) : string :=
  match format_body news_data with
  | Ok s => s
  | Raise e => "Error formatting news: " ++ exn_str e
  end.

End Format.

(** ** [handle_call_tool] (server.py, lines 147-191) *)

Record TextContent : Type := {
  type : string;
  text : string
}.

Definition text_content (s : string) : TextContent :=
  {| type := "text"; text := s |}.

Definition getenv_value (w : world) (var : string) : pyval :=
  match os_getenv w var with
  | Some s => PStr s
  | None => PNone
  end.

Section Dispatch.
Context {R : Runtime}.

(** Lines 150-154. *)
Definition call_scrape (w : world) : io (list TextContent) :=
  try_except
    (results <~ scrape_polymarket w ;;
     dumped <~ lift (json_dumps (PList results)) ;;
     io_ret [text_content dumped])
    (fun e => io_ret [text_content ("Error scraping Polymarket: " ++ exn_str e)]).

(** Lines 156-168. *)
Definition call_headlines (w : world) (arguments : pyval) : io (list TextContent) :=
  query <~ lift (py_get arguments "query" PNone) ;;
  language <~ lift (py_get arguments "language" (PStr "en")) ;;
  page_size <~ lift (py_get arguments "pageSize" (PInt 5)) ;;
  let api_key := getenv_value w "NEWSAPI_KEY" in
  if negb (truthy api_key) then
    io_ret [text_content "Missing NEWSAPI_KEY in environment."]
  else
    let params := [("q", query); ("language", language);
                   ("pageSize", page_size); ("apiKey", api_key)] in
    news_data <~ do_httpx_get w "https://newsapi.org/v2/top-headlines" params ;;
    let formatted_news := format_news_headlines news_data in
    io_ret [text_content formatted_news].

(** Lines 182-185: [if arguments.get(k): params[k] = arguments[k]]. *)
Definition copy_if_present (arguments : pyval) (k : string) (params : pydict)
  : result pydict :=
  v <- py_get arguments k PNone ;;
  if truthy v then
    x <- getitem_str arguments k ;;
    Ok (dict_set params k x)
  else Ok params.

(** Lines 170-190. *)
Definition call_everything (w : world) (arguments : pyval) : io (list TextContent) :=
  query <~ lift (py_get arguments "query" PNone) ;;
  let api_key := getenv_value w "NEWSAPI_KEY" in
  sort_by <~ lift (py_get arguments "sortBy" (PStr "popularity")) ;;
  page_size <~ lift (py_get arguments "pageSize" (PInt 100)) ;;
  page <~ lift (py_get arguments "page" (PInt 1)) ;;
  let params := [("q", query); ("apiKey", api_key); ("sortBy", sort_by);
                 ("pageSize", page_size); ("page", page)] in
  params <~ lift (copy_if_present arguments "from" params) ;;
  params <~ lift (copy_if_present arguments "to" params) ;;
  news_data <~ do_httpx_get w "https://newsapi.org/v2/everything" params ;;
  let formatted := format_news_headlines news_data in
  io_ret [text_content formatted].

Definition handle_call_tool (w : world) (name : string) (arguments : pyval)
  : io (list TextContent) :=
  if String.eqb name "scrape-polymarket" then call_scrape w
  else if String.eqb name "get-news-headlines" then call_headlines w arguments
  else if String.eqb name "get-news-everything" then call_everything w arguments
  else io_ret [text_content ("Unknown tool: " ++ name)].

End Dispatch.

(** ** Concrete scenarios

    A runtime and a world on which the model runs by computation.  The
    scenario fixes what the page's script element holds, what it decodes to
    and what [json.dumps] prints; [quote_repr] is Python's [repr] on strings
    of printable ASCII without quotes or backslashes, and the scenarios hold
    no finite non-zero float. *)

Definition quote_repr (s : string) : string := "'" ++ s ++ "'".

Definition special_float_repr (f : spec_float) : string :=
  match f with
  | S754_zero false => "0.0"
  | S754_zero true => "-0.0"
  | S754_infinity false => "inf"
  | S754_infinity true => "-inf"
  | S754_nan => "nan"
  | S754_finite _ _ _ => "?"
  end.

Definition scenario_runtime (script : option (option string))
    (decoded : result pyval) (dumped : result string) : Runtime :=
  {| float_repr := special_float_repr;
     str_repr := quote_repr;
     soup_find_next_data := fun _ => script;
     json_loads := fun _ => decoded;
     json_dumps := fun _ => dumped |}.

Definition homepage (html : string) : response :=
  {| status_code := 200; reason := "OK";
     url := "https://polymarket.com/"; body_text := html |}.

Definition scenario_world (html : string) (key : option string)
    (news : result pyval) : world :=
  {| requests_get := fun _ => Ok (homepage html);
     httpx_get_json := fun _ _ => news;
     os_getenv := fun var => if String.eqb var "NEWSAPI_KEY" then key else None |}.

(** The JSON shape of the page, around a given list of events. *)
Definition next_data (events : list pyval) : pyval :=
  let page := PDict [("events", PList events)] in
  let query := PDict [("state", PDict [("data", PDict [("pages", PList [page])])])] in
  let dehydrated := PDict [("queries", PList [query])] in
  PDict [("props", PDict [("pageProps", PDict [("dehydratedState", dehydrated)])])].

Definition event_yes_no : pyval :=
  PDict [("title", PStr "Will it rain?"); ("slug", PStr "rain");
         ("markets",
          PList [PDict [("outcomes", PList [PStr "Yes"; PStr "No"]);
                        ("outcomePrices", PList [PStr "0.3"; PStr "0.7"])]])].

Definition event_no_markets : pyval :=
  PDict [("title", PStr "Empty"); ("slug", PStr "empty"); ("markets", PList [])].

Definition event_three_two : pyval :=
  PDict [("title", PStr "Who wins?"); ("slug", PStr "who-wins");
         ("markets",
          PList [PDict [("outcomes", PList [PStr "A"; PStr "B"; PStr "C"]);
                        ("outcomePrices", PList [PStr "0.5"; PStr "0.4"])]])].


(** NewsAPI's answer to a request without a key. *)
Definition news_key_missing : pyval :=
  PDict [("status", PStr "error"); ("code", PStr "apiKeyMissing");
         ("message", PStr "Your API key is missing.")].

(** A page whose embedded JSON decodes to the given events. *)
Definition page_runtime (events : list pyval) : Runtime :=
  scenario_runtime (Some (Some "{...}")) (Ok (next_data events)) (Ok "[...]").

(** A page without the [__NEXT_DATA__] script element. *)
Definition bare_page_runtime : Runtime :=
  scenario_runtime None (Ok PNone) (Ok "[]").

Definition world_without_key : world :=
  scenario_world "<html></html>" None (Ok news_key_missing).

Definition world_with_key : world :=
  scenario_world "<html></html>" (Some "secret")
    (Ok (PDict [("status", PStr "ok"); ("articles", PList [])])).

Definition plain_runtime : Runtime :=
  scenario_runtime (Some (Some "{}")) (Ok (PDict [])) (Ok "[]").

(** ** Vocabulary for the statements *)

(** [d.get(k, default)] on a dictionary, as a value. *)
Definition get_or (d : pydict) (k : string) (default : pyval) : pyval :=
  match dict_get d k with
  | Some x => x
  | None => default
  end.

(** The names the registry declares, in order. *)
Definition tool_names : list string := map name list_tools.

(** An article the formatter can render: a dictionary whose [source], when
    present, is a dictionary too. *)
Definition article_ok (article : pyval) : bool :=
  match article with
  | PDict d =>
      match dict_get d "source" with
      | None => true
      | Some src => is_dict src
      end
  | _ => false
  end.

(** The exceptions indexing can raise. *)
Definition indexing_error (e : exn) : Prop :=
  (exists k, e = KeyError k)
  \/ (exists m, e = IndexError m)
  \/ (exists m, e = TypeError m).

(** ** Further scenarios *)

Definition world_empty_key : world :=
  scenario_world "<html></html>" (Some "") (Ok news_key_missing).

(** Twenty good events followed by one without a market. *)
Definition events_20_then_bad : list pyval :=
  (repeat event_yes_no 20 ++ [event_no_markets])%list.

Definition article_full : pyval :=
  PDict [("title", PStr "T"); ("source", PDict [("name", PStr "S")]);
         ("publishedAt", PStr "2024-01-01"); ("url", PStr "http://x")].

(** An article whose [source] is JSON [null]. *)
Definition article_null_source : pyval :=
  PDict [("title", PStr "U"); ("source", PNone)].

Definition summary_yes_no : pyval :=
  PDict [("title", PStr "Will it rain?");
         ("url", PStr "https://polymarket.com/market/rain");
         ("outcomes",
          PList [PDict [("outcome", PStr "Yes"); ("probability", PStr "0.3")];
                 PDict [("outcome", PStr "No"); ("probability", PStr "0.7")]])].

(** * Properties *)

(** ** Loops in the error monad *)

Lemma bind_ok_inv {A B : Type} (m : result A) (f : A -> result B) (b : B) :
  bind m f = Ok b -> exists a, m = Ok a /\ f a = Ok b.
Proof.
  destruct m as [a|e]; simpl; intros H.
  - exists a; split; [reflexivity | exact H].
  - discriminate H.
Qed.

Lemma mapM_Forall2 {A B : Type} (f : A -> result B) (l : list A) (r : list B) :
  mapM f l = Ok r <-> Forall2 (fun x y => f x = Ok y) l r.
Proof.
  revert r; induction l as [|x xs IH]; intros r; simpl.
  - split; intros H.
    + injection H as <-; constructor.
    + inversion H; reflexivity.
  - split; intros H.
    + apply bind_ok_inv in H as (y & Hy & H).
      apply bind_ok_inv in H as (ys & Hys & H).
      injection H as <-.
      constructor; [exact Hy | apply IH; exact Hys].
    + inversion H as [|? y ? ys Hy Hys]; subst.
      rewrite Hy; simpl.
      apply IH in Hys; rewrite Hys; reflexivity.
Qed.

Lemma mapM_length {A B : Type} (f : A -> result B) (l : list A) (r : list B) :
  mapM f l = Ok r -> List.length r = List.length l.
Proof.
  intros H; apply mapM_Forall2 in H.
  symmetry; eapply Forall2_length; exact H.
Qed.

Lemma mapM_total {A B : Type} (f : A -> result B) (l : list A) :
  (forall x, In x l -> exists y, f x = Ok y) -> exists r, mapM f l = Ok r.
Proof.
  induction l as [|x xs IH]; intros H; simpl.
  - exists []; reflexivity.
  - destruct (H x (or_introl eq_refl)) as [y Hy].
    destruct IH as [ys Hys]; [intros z Hz; apply H; right; exact Hz|].
    exists (y :: ys); rewrite Hy, Hys; reflexivity.
Qed.

(** One raising iteration is enough for the whole loop to raise. *)
Lemma mapM_raises {A B : Type} (f : A -> result B) (l : list A) (x : A) (e : exn) :
  In x l -> f x = Raise e -> exists e', mapM f l = Raise e'.
Proof.
  induction l as [|y ys IH]; intros Hin Hx; simpl.
  - destruct Hin.
  - destruct (f y) as [b|e0] eqn:Hy; simpl.
    + destruct Hin as [->|Hin]; [congruence|].
      destruct (IH Hin Hx) as [e' He']; rewrite He'; simpl.
      exists e'; reflexivity.
    + exists e0; reflexivity.
Qed.

(** A comprehension over [range(len(ys))] whose body yields the items of
    [ys] builds [ys]. *)
Lemma mapM_seq_nth {B : Type} (g : nat -> result B) (ys : list B) (k : nat) :
  (forall i y, nth_error ys i = Some y -> g (k + i) = Ok y) ->
  mapM g (seq k (List.length ys)) = Ok ys.
Proof.
  revert k; induction ys as [|y ys IH]; intros k H; simpl.
  - reflexivity.
  - rewrite <- (Nat.add_0_r k) at 1.
    rewrite (H 0 y eq_refl); simpl.
    rewrite IH; [reflexivity|].
    intros i z Hz. replace (S k + i) with (k + S i) by lia. apply H; exact Hz.
Qed.

Lemma nth_error_map_combine {A B C : Type} (f : A * B -> C)
    (xs : list A) (ys : list B) (i : nat) (c : C) :
  nth_error (map f (combine xs ys)) i = Some c ->
  exists a b, nth_error xs i = Some a /\ nth_error ys i = Some b /\ c = f (a, b).
Proof.
  revert ys i; induction xs as [|a xs IH]; intros [|b ys] [|i]; simpl; intros H;
    try discriminate H.
  - injection H as <-. exists a, b; auto.
  - apply IH; exact H.
Qed.

(** ** The [io] monad *)

Lemma outcome_bind_raise {A B : Type} (m : io A) (f : A -> io B) (e : exn) :
  outcome m = Raise e -> outcome (io_bind m f) = Raise e.
Proof.
  destruct m as [log [a|e']]; unfold outcome; simpl; intros H;
    [discriminate H | injection H as ->; reflexivity].
Qed.


Lemma prefix_app (s t : string) : String.prefix s (s ++ t) = true.
Proof.
  induction s as [|c s IH]; simpl.
  - destruct t; reflexivity.
  - destruct (ascii_dec c c) as [_|Hne]; [exact IH | congruence].
Qed.

Section Facts.

(** ** The extractor *)

Context {R : Runtime}.


Lemma extract_markets_list (data : pyval) (events : list pyval) :
  events_of data = Ok (PList events) ->
  extract_markets data = mapM summarise_event (firstn 20 events).
Proof.
  intros H; unfold extract_markets; rewrite H; reflexivity.
Qed.



(** A page without the [__NEXT_DATA__] element: [script_tag] is [None] and
    reading [.string] raises. *)
Lemma scrape_missing_script (w : world) (resp : response) :
  requests_get w BASE_URL = Ok resp ->
  raise_for_status resp = Ok tt ->
  soup_find_next_data (body_text resp) = None ->
  outcome (scrape_polymarket w) = Raise (no_attribute PNone "string").
Proof.
  intros Hget Hstatus Hfind.
  unfold scrape_polymarket; apply outcome_bind_raise.
  unfold fetch_next_data, do_requests_get, load_next_data, outcome, io_bind, lift.
  rewrite Hget, Hstatus, Hfind; reflexivity.
Qed.

(** ** The dispatcher *)

Lemma call_scrape_raise (w : world) (e : exn) :
  outcome (scrape_polymarket w) = Raise e ->
  call_scrape w =
    (sent (scrape_polymarket w),
     Ok [text_content ("Error scraping Polymarket: " ++ exn_str e)]).
Proof.
  unfold call_scrape, outcome, sent.
  destruct (scrape_polymarket w) as [log [results|e']]; simpl; intros H.
  - discriminate H.
  - injection H as ->. rewrite app_nil_r. reflexivity.
Qed.

(** Whatever happens inside the [try], the scrape branch answers with one
    text item. *)
Lemma call_scrape_answers (w : world) :
  exists t, outcome (call_scrape w) = Ok [text_content t].
Proof.
  unfold call_scrape, outcome.
  destruct (scrape_polymarket w) as [log [results|e]]; simpl.
  - destruct (json_dumps (PList results)) as [dumped|e]; simpl; eauto.
  - eauto.
Qed.

Lemma handle_scrape (w : world) (arguments : pyval) :
  handle_call_tool w "scrape-polymarket" arguments = call_scrape w.
Proof. reflexivity. Qed.

(** C4.  Every exception raised by [scrape_polymarket] is caught by the
    dispatcher, which answers with one text item beginning
    "Error scraping Polymarket:" followed by the exception's message; this
    holds in particular when the fetched page has no [__NEXT_DATA__] script
    element. *)
Theorem C4_scrape_errors_become_text (w : world) (arguments : pyval) :
  (forall e, outcome (scrape_polymarket w) = Raise e ->
     outcome (handle_call_tool w "scrape-polymarket" arguments)
       = Ok [text_content ("Error scraping Polymarket: " ++ exn_str e)]
     /\ String.prefix "Error scraping Polymarket:"
          ("Error scraping Polymarket: " ++ exn_str e) = true)
  /\
  (forall resp,
     requests_get w BASE_URL = Ok resp ->
     raise_for_status resp = Ok tt ->
     soup_find_next_data (body_text resp) = None ->
     outcome (handle_call_tool w "scrape-polymarket" arguments)
       = Ok [text_content
               "Error scraping Polymarket: 'NoneType' object has no attribute 'string'"]).
Proof.
  split.
  - intros e He. split.
    + rewrite handle_scrape, (call_scrape_raise w e He). reflexivity.
    + apply (prefix_app "Error scraping Polymarket:" (" " ++ exn_str e)).
  - intros resp Hget Hstatus Hfind.
    pose proof (scrape_missing_script w resp Hget Hstatus Hfind) as He.
    rewrite handle_scrape, (call_scrape_raise w _ He). reflexivity.
Qed.


(** C9.  A tool name outside the three declared ones is answered with the
    single text item "Unknown tool: <name>", returned normally and without
    any outbound request. *)
Theorem C9_unknown_tool (w : world) (name : string) (arguments : pyval) :
  name <> "scrape-polymarket" ->
  name <> "get-news-headlines" ->
  name <> "get-news-everything" ->
  handle_call_tool w name arguments
    = ([], Ok [text_content ("Unknown tool: " ++ name)]).
Proof.
  intros H1 H2 H3. unfold handle_call_tool.
  apply String.eqb_neq in H1, H2, H3.
  rewrite H1, H2, H3. reflexivity.
Qed.

(** C10.  With [arguments = None] both news branches raise [AttributeError]
    on their first [arguments.get], before anything is sent and without
    producing a text result; the scrape branch never reads [arguments] and
    always answers with one text item. *)
Theorem C10_none_arguments (w : world) :
  handle_call_tool w "get-news-headlines" PNone
    = ([], Raise (AttributeError "'NoneType' object has no attribute 'get'"))
  /\ handle_call_tool w "get-news-everything" PNone
       = ([], Raise (AttributeError "'NoneType' object has no attribute 'get'"))
  /\ (forall arguments,
        handle_call_tool w "scrape-polymarket" arguments
          = handle_call_tool w "scrape-polymarket" PNone
        /\ exists t,
             outcome (handle_call_tool w "scrape-polymarket" arguments)
               = Ok [text_content t]).
Proof.
  split; [reflexivity|]. split; [reflexivity|].
  intros arguments. split.
  - rewrite !handle_scrape. reflexivity.
  - rewrite handle_scrape. apply call_scrape_answers.
Qed.

(** ** Sequences and the zipped outcomes *)

Lemma length_chars (s : string) : List.length (chars s) = String.length s.
Proof.
  unfold chars; rewrite length_map.
  induction s as [|c s IH]; simpl; [reflexivity | rewrite IH; reflexivity].
Qed.

Lemma seq_items_len (v : pyval) (xs : list pyval) :
  seq_items v = Some xs -> py_len v = Ok (List.length xs).
Proof.
  destruct v; simpl; intros H; try discriminate H; injection H as <-.
  - rewrite length_chars; reflexivity.
  - reflexivity.
Qed.

Lemma seq_items_getitem (v : pyval) (xs : list pyval) (i : nat) (x : pyval) :
  seq_items v = Some xs -> nth_error xs i = Some x -> getitem_int v i = Ok x.
Proof.
  destruct v; simpl; intros H Hx; try discriminate H; injection H as <-;
    rewrite Hx; reflexivity.
Qed.

Lemma nth_error_combine {A B : Type} (xs : list A) (ys : list B) (i : nat)
    (a : A) (b : B) :
  nth_error xs i = Some a -> nth_error ys i = Some b ->
  nth_error (combine xs ys) i = Some (a, b).
Proof.
  revert ys i; induction xs as [|x xs IH]; intros [|y ys] [|i]; simpl;
    intros Ha Hb; try discriminate.
  - congruence.
  - apply IH; assumption.
Qed.

(** On two sequences the comprehension is the positional zip. *)
Lemma outcome_probs_zip (outcomes prices : pyval) (os ps : list pyval) :
  seq_items outcomes = Some os ->
  seq_items prices = Some ps ->
  outcome_probs outcomes prices = Ok (map outcome_prob (combine os ps)).
Proof.
  intros Ho Hp. unfold outcome_probs.
  rewrite (seq_items_len _ _ Ho), (seq_items_len _ _ Hp). cbn [bind].
  rewrite <- (length_combine os ps), <- (length_map outcome_prob).
  apply mapM_seq_nth.
  intros i y Hy.
  apply nth_error_map_combine in Hy as (o & p & Hoi & Hpi & ->).
  cbn [Nat.add].
  rewrite (seq_items_getitem _ _ _ _ Ho Hoi), (seq_items_getitem _ _ _ _ Hp Hpi).
  reflexivity.
Qed.

Lemma py_get_dict (d : pydict) (k : string) (default : pyval) :
  py_get (PDict d) k default
    = Ok (match dict_get d k with Some x => x | None => default end).
Proof. reflexivity. Qed.

Lemma py_get_ok_dict (v : pyval) (k : string) (default x : pyval) :
  py_get v k default = Ok x -> exists d, v = PDict d.
Proof.
  destruct v as [| | | | | |d]; try discriminate; intros _; exists d; reflexivity.
Qed.

(** C7.  For an event whose first market holds two sequences as [outcomes]
    and [outcomePrices], the summary's outcome-probability list pairs them
    position by position and is as long as the shorter of the two. *)
Theorem C7_outcomes_zipped (event markets market_info outcomes prices : pyval)
    (os ps : list pyval) :
  py_get event "markets" (PList []) = Ok markets ->
  getitem_int markets 0 = Ok market_info ->
  py_get market_info "outcomes" (PList []) = Ok outcomes ->
  py_get market_info "outcomePrices" (PList []) = Ok prices ->
  seq_items outcomes = Some os ->
  seq_items prices = Some ps ->
  exists title link probs,
    summarise_event event
      = Ok (PDict [("title", title); ("url", PStr link); ("outcomes", PList probs)])
    /\ probs = map outcome_prob (combine os ps)
    /\ List.length probs = Nat.min (List.length os) (List.length ps)
    /\ (forall i o p,
          nth_error os i = Some o -> nth_error ps i = Some p ->
          nth_error probs i
            = Some (PDict [("outcome", o); ("probability", p)])).
Proof.
  intros Hmarkets Hfirst Houtcomes Hprices Hos Hps.
  destruct (py_get_ok_dict _ _ _ _ Hmarkets) as [d ->].
  unfold summarise_event.
  rewrite (py_get_dict d "title"), (py_get_dict d "slug"). cbn [bind].
  rewrite Hmarkets. cbn [bind].
  rewrite Hfirst. cbn [bind].
  rewrite Houtcomes, Hprices. cbn [bind].
  rewrite (outcome_probs_zip _ _ _ _ Hos Hps). cbn [bind].
  do 3 eexists. split; [reflexivity|]. split; [reflexivity|]. split.
  - rewrite length_map, length_combine; reflexivity.
  - intros i o p Ho Hp.
    rewrite nth_error_map, (nth_error_combine _ _ _ _ _ Ho Hp). reflexivity.
Qed.


(** Whatever the events hold, a returned batch never has more than 20
    entries. *)
Lemma extract_markets_capped (data : pyval) (events results : list pyval) :
  events_of data = Ok (PList events) ->
  extract_markets data = Ok results ->
  List.length results = Nat.min 20 (List.length events).
Proof.
  intros Hevents Hres.
  rewrite (extract_markets_list _ _ Hevents) in Hres.
  rewrite (mapM_length _ _ _ Hres), length_firstn. reflexivity.
Qed.

(** ** The headline formatter *)

Lemma eq_str_false (v : pyval) (s : string) : v <> PStr s -> eq_str v s = false.
Proof.
  destruct v as [| | | |t| |]; simpl; intros H; try reflexivity.
  apply String.eqb_neq. intros ->. apply H; reflexivity.
Qed.

Lemma truthy_dict (d : pydict) (k : string) (x : pyval) :
  dict_get d k = Some x -> truthy (PDict d) = true.
Proof. destruct d; simpl; [discriminate | reflexivity]. Qed.

Lemma mapM_raise_inv {A B : Type} (f : A -> result B) (l : list A) (e : exn) :
  mapM f l = Raise e -> exists x, In x l /\ f x = Raise e.
Proof.
  induction l as [|y ys IH]; simpl; intros H.
  - discriminate H.
  - destruct (f y) as [b|e0] eqn:Hy; simpl in H.
    + destruct (mapM f ys) as [bs|e1]; simpl in H; [discriminate H|].
      destruct (IH H) as (x & Hin & Hx). exists x; auto.
    + injection H as ->. exists y; auto.
Qed.

(** One article can only fail on a [.get] of something that is no [dict]. *)
Lemma format_article_raise (article : pyval) (e : exn) :
  format_article article = Raise e -> exists m, e = AttributeError m.
Proof.
  unfold format_article.
  destruct article as [| | | | | |d]; simpl;
    try (intros H; injection H as <-; eexists; reflexivity).
  destruct (match dict_get d "source" with Some x => x | None => PDict [] end)
    as [| | | | | |src]; simpl;
    try (intros H; injection H as <-; eexists; reflexivity).
  discriminate.
Qed.

(** The exceptions the body of the [try] can raise are [AttributeError]s and
    [TypeError]s, both subclasses of [Exception]. *)
Lemma format_body_raise (news_data : pyval) (e : exn) :
  format_body news_data = Raise e ->
  exists m, e = AttributeError m \/ e = TypeError m.
Proof.
  unfold format_body.
  destruct (negb (truthy news_data) || negb (is_dict news_data)); [discriminate|].
  destruct news_data as [| | | | | |d];
    try (simpl; intros H; injection H as <-; eexists; left; reflexivity).
  rewrite !py_get_dict. cbn [bind].
  destruct (negb (eq_str _ "ok")); [discriminate|].
  destruct (negb (truthy _)); [discriminate|].
  destruct (py_iter _) as [items|e0] eqn:Hiter; cbn [bind].
  - destruct (mapM format_article items) as [formatted|e1] eqn:Hmap; cbn [bind];
      [discriminate|].
    intros H; injection H as ->.
    apply mapM_raise_inv in Hmap as (article & _ & Hart).
    destruct (format_article_raise _ _ Hart) as [m ->]. exists m; left; reflexivity.
  - intros H; injection H as ->.
    destruct (match dict_get d "articles" with Some x => x | None => PList [] end);
      simpl in Hiter; try discriminate Hiter; injection Hiter as <-;
      eexists; right; reflexivity.
Qed.

(** C8.  The formatter returns a string on every input; whenever its body
    raises, the exception is an [AttributeError] or a [TypeError], it is
    caught, and the result is "Error formatting news: " followed by the
    exception's message. *)
Theorem C8_formatter_catches (news_data : pyval) (e : exn) :
  format_body news_data = Raise e ->
  format_news_headlines news_data = "Error formatting news: " ++ exn_str e
  /\ exists m, e = AttributeError m \/ e = TypeError m.
Proof.
  intros H. split.
  - unfold format_news_headlines. rewrite H. reflexivity.
  - apply (format_body_raise news_data e H).
Qed.

Lemma format_body_status (d : pydict) (st : pyval) :
  dict_get d "status" = Some st ->
  format_body (PDict d)
    = if negb (eq_str st "ok") then
        Ok ("NewsAPI error: "
              ++ py_str (match dict_get d "message" with
                         | Some m => m
                         | None => PStr "Unknown error"
                         end))
      else
        articles <- py_get (PDict d) "articles" (PList []) ;;
        if negb (truthy articles) then Ok "No news articles found."
        else
          items <- py_iter articles ;;
          formatted <- mapM format_article items ;;
          Ok (String.concat nl (("Top News Headlines:" ++ nl) :: formatted)).
Proof.
  intros Hst. unfold format_body.
  rewrite (truthy_dict d "status" st Hst). cbn [negb is_dict orb].
  rewrite !py_get_dict, Hst. cbn [bind]. reflexivity.
Qed.

(** C5 (as amended).  For a non-empty response mapping whose [status] is
    not "ok", a missing [status] included, the formatter returns
    "NewsAPI error: " followed by the message, or by "Unknown error" when
    there is no message; for status "ok" with an empty [articles] list it
    returns "No news articles found."; the empty mapping is falsy and gets
    "No news data available.". *)
Theorem C5_error_and_empty_responses (d : pydict) :
  (d <> [] ->
   get_or d "status" PNone <> PStr "ok" ->
   format_news_headlines (PDict d)
     = "NewsAPI error: " ++ py_str (get_or d "message" (PStr "Unknown error")))
  /\
  (dict_get d "status" = Some (PStr "ok") ->
   dict_get d "articles" = Some (PList []) ->
   format_news_headlines (PDict d) = "No news articles found.")
  /\
  (d = [] -> format_news_headlines (PDict d) = "No news data available.").
Proof.
  split; [|split].
  - intros Hne Hst. unfold format_news_headlines, format_body.
    assert (Ht : truthy (PDict d) = true)
      by (destruct d; [congruence | reflexivity]).
    rewrite Ht. cbn [negb is_dict orb].
    rewrite !py_get_dict.
    fold (get_or d "status" PNone) (get_or d "message" (PStr "Unknown error")).
    cbn [bind]. rewrite (eq_str_false _ "ok" Hst). reflexivity.
  - intros Hst Hart. unfold format_news_headlines.
    rewrite (format_body_status d _ Hst), py_get_dict, Hart. reflexivity.
  - intros ->. reflexivity.
Qed.

(** The empty mapping is falsy, so it never reaches the status test. *)
Lemma format_empty_mapping :
  format_news_headlines (PDict []) = "No news data available.".
Proof. reflexivity. Qed.

(** ** The news branches of the dispatcher *)

Lemma dict_get_set_other (params : pydict) (k k' : string) (v : pyval) :
  k' <> k -> dict_get (dict_set params k v) k' = dict_get params k'.
Proof.
  intros Hne. induction params as [|[k0 v0] rest IH]; simpl.
  - destruct (String.eqb_spec k k'); [congruence | reflexivity].
  - destruct (String.eqb_spec k0 k) as [->|Hk0]; simpl.
    + destruct (String.eqb_spec k k'); [congruence | reflexivity].
    + destruct (String.eqb_spec k0 k'); [reflexivity | exact IH].
Qed.

(** On a dictionary of arguments the conditional copy never raises, and it
    touches no key but its own. *)
Lemma copy_if_present_dict (d : pydict) (k : string) (params : pydict) :
  exists params',
    copy_if_present (PDict d) k params = Ok params'
    /\ (forall k', k' <> k -> dict_get params' k' = dict_get params k')
    /\ (dict_get d k = None -> params' = params).
Proof.
  unfold copy_if_present. rewrite py_get_dict. cbn [bind getitem_str].
  destruct (dict_get d k) as [x|] eqn:Hk.
  - destruct (truthy x).
    + exists (dict_set params k x). split; [reflexivity|]. split.
      * intros k' Hne. apply dict_get_set_other; exact Hne.
      * discriminate.
    + exists params. split; [reflexivity|]. split; [reflexivity | discriminate].
  - exists params. simpl. split; [reflexivity|]. split; reflexivity.
Qed.

(** The one request the "everything" branch sends for a dictionary of
    arguments: the key is whatever [os.getenv] returned, [None] included,
    and the fallbacks are "popularity", 100 and 1. *)
Lemma everything_request (w : world) (d : pydict) :
  exists params,
    sent (handle_call_tool w "get-news-everything" (PDict d))
      = [{| req_url := "https://newsapi.org/v2/everything";
            req_params := params |}]
    /\ dict_get params "apiKey" = Some (getenv_value w "NEWSAPI_KEY")
    /\ dict_get params "sortBy"
         = Some (match dict_get d "sortBy" with
                 | Some x => x
                 | None => PStr "popularity"
                 end)
    /\ dict_get params "pageSize"
         = Some (match dict_get d "pageSize" with
                 | Some x => x
                 | None => PInt 100
                 end).
Proof.
  change (handle_call_tool w "get-news-everything" (PDict d))
    with (call_everything w (PDict d)).
  unfold call_everything. rewrite !py_get_dict.
  cbn [lift io_bind app].
  set (params0 := [("q", _); ("apiKey", _); ("sortBy", _); ("pageSize", _); ("page", _)]).
  destruct (copy_if_present_dict d "from" params0) as (p1 & -> & Hp1 & _).
  cbn [lift io_bind app].
  destruct (copy_if_present_dict d "to" p1) as (p2 & -> & Hp2 & _).
  cbn [lift io_bind app].
  exists p2.
  assert (Hkeep : forall k, k <> "from" -> k <> "to" ->
                            dict_get p2 k = dict_get params0 k)
    by (intros k Hf Ht; rewrite (Hp2 k Ht); apply Hp1; exact Hf).
  split.
  - unfold do_httpx_get, sent.
    destruct (httpx_get_json w _ p2); reflexivity.
  - repeat split; rewrite Hkeep by discriminate; reflexivity.
Qed.

(** With no key in the environment the "headlines" branch answers with the
    missing-key text and sends nothing. *)
Lemma headlines_missing_key (w : world) (d : pydict) :
  truthy (getenv_value w "NEWSAPI_KEY") = false ->
  handle_call_tool w "get-news-headlines" (PDict d)
    = ([], Ok [text_content "Missing NEWSAPI_KEY in environment."]).
Proof.
  intros Hkey.
  change (handle_call_tool w "get-news-headlines" (PDict d))
    with (call_headlines w (PDict d)).
  unfold call_headlines. rewrite !py_get_dict.
  cbn [lift io_bind app]. rewrite Hkey. reflexivity.
Qed.

(** Without [from] and [to] among the arguments, the request carries exactly
    the five fixed parameters. *)
Lemma everything_without_dates (w : world) (d : pydict) :
  dict_get d "from" = None ->
  dict_get d "to" = None ->
  sent (handle_call_tool w "get-news-everything" (PDict d))
    = [{| req_url := "https://newsapi.org/v2/everything";
          req_params :=
            [("q", match dict_get d "query" with Some x => x | None => PNone end);
             ("apiKey", getenv_value w "NEWSAPI_KEY");
             ("sortBy", match dict_get d "sortBy" with
                        | Some x => x
                        | None => PStr "popularity"
                        end);
             ("pageSize", match dict_get d "pageSize" with
                          | Some x => x
                          | None => PInt 100
                          end);
             ("page", match dict_get d "page" with
                      | Some x => x
                      | None => PInt 1
                      end)] |}].
Proof.
  intros Hfrom Hto.
  change (handle_call_tool w "get-news-everything" (PDict d))
    with (call_everything w (PDict d)).
  unfold call_everything, copy_if_present. rewrite !py_get_dict, Hfrom, Hto.
  cbn [lift io_bind app bind truthy].
  unfold do_httpx_get, sent.
  destruct (httpx_get_json w _ _); reflexivity.
Qed.

End Facts.

(** ** The claims on concrete inputs *)



Lemma C4_witness :
  outcome (@handle_call_tool bare_page_runtime world_without_key
             "scrape-polymarket" (PDict []))
    = Ok [text_content
            "Error scraping Polymarket: 'NoneType' object has no attribute 'string'"].
Proof.
  apply (proj2 (@C4_scrape_errors_become_text bare_page_runtime world_without_key
                  (PDict [])) (homepage "<html></html>")).
  - reflexivity.
  - reflexivity.
  - reflexivity.
Defined.

(** C5, the claim as stated fails: the empty mapping has no "ok" status, yet
    the result is not the "NewsAPI error" text. *)
Lemma C5_empty_mapping_counterexample :
  get_or [] "status" PNone = PNone
  /\ eq_str (get_or [] "status" PNone) "ok" = false
  /\ @format_news_headlines plain_runtime (PDict []) = "No news data available."
  /\ String.eqb (@format_news_headlines plain_runtime (PDict []))
       "NewsAPI error: Unknown error" = false.
Proof.
  split; [reflexivity|]. split; [reflexivity|]. split; reflexivity.
Qed.

Lemma C5_witness :
  @format_news_headlines plain_runtime
     (PDict [("status", PStr "error"); ("message", PStr "rate limited")])
    = "NewsAPI error: rate limited"
  /\ @format_news_headlines plain_runtime (PDict [("code", PStr "x")])
      = "NewsAPI error: Unknown error"
  /\ @format_news_headlines plain_runtime
       (PDict [("status", PStr "ok"); ("articles", PList [])])
      = "No news articles found.".
Proof.
  split; [|split].
  - apply (proj1 (@C5_error_and_empty_responses plain_runtime
                    [("status", PStr "error"); ("message", PStr "rate limited")])).
    + discriminate.
    + discriminate.
  - apply (proj1 (@C5_error_and_empty_responses plain_runtime [("code", PStr "x")])).
    + discriminate.
    + discriminate.
  - apply (proj1 (proj2 (@C5_error_and_empty_responses plain_runtime
                           [("status", PStr "ok"); ("articles", PList [])]))).
    + reflexivity.
    + reflexivity.
Defined.



Lemma C7_witness :
  exists title link probs,
    @summarise_event plain_runtime event_three_two
      = Ok (PDict [("title", title); ("url", PStr link); ("outcomes", PList probs)])
    /\ probs = map outcome_prob
                 (combine [PStr "A"; PStr "B"; PStr "C"] [PStr "0.5"; PStr "0.4"])
    /\ List.length probs = 2
    /\ (forall i o p,
          nth_error [PStr "A"; PStr "B"; PStr "C"] i = Some o ->
          nth_error [PStr "0.5"; PStr "0.4"] i = Some p ->
          nth_error probs i = Some (PDict [("outcome", o); ("probability", p)])).
Proof.
  apply (@C7_outcomes_zipped plain_runtime event_three_two
           (PList [PDict [("outcomes", PList [PStr "A"; PStr "B"; PStr "C"]);
                          ("outcomePrices", PList [PStr "0.5"; PStr "0.4"])]])
           (PDict [("outcomes", PList [PStr "A"; PStr "B"; PStr "C"]);
                   ("outcomePrices", PList [PStr "0.5"; PStr "0.4"])])
           (PList [PStr "A"; PStr "B"; PStr "C"])
           (PList [PStr "0.5"; PStr "0.4"])
           [PStr "A"; PStr "B"; PStr "C"] [PStr "0.5"; PStr "0.4"]);
    reflexivity.
Defined.

Lemma C8_witness :
  @format_news_headlines plain_runtime
     (PDict [("status", PStr "ok"); ("articles", PList [PInt 1])])
    = "Error formatting news: 'int' object has no attribute 'get'"
  /\ exists m, AttributeError "'int' object has no attribute 'get'" = AttributeError m
             \/ AttributeError "'int' object has no attribute 'get'" = TypeError m.
Proof.
  apply (@C8_formatter_catches plain_runtime
           (PDict [("status", PStr "ok"); ("articles", PList [PInt 1])])
           (AttributeError "'int' object has no attribute 'get'")).
  reflexivity.
Defined.

Lemma C9_witness :
  @handle_call_tool plain_runtime world_without_key "not-a-tool" PNone
    = ([], Ok [text_content "Unknown tool: not-a-tool"]).
Proof.
  apply (@C9_unknown_tool plain_runtime world_without_key "not-a-tool" PNone);
    discriminate.
Defined.

(** The formatter on one complete article: header, then the four labelled
    lines and the separator. *)
Example format_one_article :
  @format_news_headlines plain_runtime
     (PDict [("status", PStr "ok");
             ("articles",
              PList [PDict [("title", PStr "T");
                            ("source", PDict [("name", PStr "S")]);
                            ("publishedAt", PStr "2024-01-01");
                            ("url", PStr "http://x")]])])
    = "Top News Headlines:" ++ nl ++ nl
      ++ "Title: T" ++ nl ++ "Source: S" ++ nl
      ++ "Published: 2024-01-01" ++ nl ++ "URL: http://x" ++ nl
      ++ "---" ++ nl.
Proof. reflexivity. Qed.

(** A successful scrape: both events are summarised and the list is handed
    to [json.dumps]. *)
Example scrape_two_events :
  @extract_markets plain_runtime (next_data [event_yes_no; event_three_two])
    = Ok [PDict [("title", PStr "Will it rain?");
                 ("url", PStr "https://polymarket.com/market/rain");
                 ("outcomes",
                  PList [PDict [("outcome", PStr "Yes"); ("probability", PStr "0.3")];
                         PDict [("outcome", PStr "No"); ("probability", PStr "0.7")]])];
          PDict [("title", PStr "Who wins?");
                 ("url", PStr "https://polymarket.com/market/who-wins");
                 ("outcomes",
                  PList [PDict [("outcome", PStr "A"); ("probability", PStr "0.5")];
                         PDict [("outcome", PStr "B"); ("probability", PStr "0.4")]])]]
  /\ @handle_call_tool (page_runtime [event_yes_no; event_three_two])
       world_without_key "scrape-polymarket" PNone
     = ([{| req_url := "https://polymarket.com"; req_params := [] |}],
        Ok [text_content "[...]"]).
Proof. split; reflexivity. Qed.

(** C2 at its failing input: with no [NEWSAPI_KEY] in the environment the
    "everything" branch still sends its request, with [None] as the key,
    and formats whatever comes back; the "headlines" branch on the same
    input sends nothing and answers with the missing-key text. *)
Theorem C2_everything_sends_without_key :
  os_getenv world_without_key "NEWSAPI_KEY" = None
  /\ @handle_call_tool plain_runtime world_without_key "get-news-everything"
       (PDict [("query", PStr "bitcoin")])
     = ([{| req_url := "https://newsapi.org/v2/everything";
            req_params := [("q", PStr "bitcoin"); ("apiKey", PNone);
                           ("sortBy", PStr "popularity"); ("pageSize", PInt 100);
                           ("page", PInt 1)] |}],
        Ok [text_content "NewsAPI error: Your API key is missing."])
  /\ @handle_call_tool plain_runtime world_without_key "get-news-headlines"
       (PDict [("query", PStr "bitcoin")])
     = ([], Ok [text_content "Missing NEWSAPI_KEY in environment."]).
Proof.
  split; [reflexivity|]. split.
  - reflexivity.
  - apply headlines_missing_key. reflexivity.
Qed.

(** C3 at its failing input: the registry declares the defaults 5 and
    "publishedAt" for "get-news-everything", while a call that omits both
    parameters sends 100 and "popularity". *)
Theorem C3_everything_defaults_differ :
  declared_default "get-news-everything" "pageSize" = Some (PInt 5)
  /\ declared_default "get-news-everything" "sortBy" = Some (PStr "publishedAt")
  /\ sent (@handle_call_tool plain_runtime world_with_key "get-news-everything"
             (PDict [("query", PStr "bitcoin")]))
     = [{| req_url := "https://newsapi.org/v2/everything";
           req_params := [("q", PStr "bitcoin"); ("apiKey", PStr "secret");
                          ("sortBy", PStr "popularity"); ("pageSize", PInt 100);
                          ("page", PInt 1)] |}].
Proof.
  split; [reflexivity|]. split; [reflexivity|].
  apply (@everything_without_dates plain_runtime world_with_key
           [("query", PStr "bitcoin")]); reflexivity.
Qed.

(** * Further properties of the dispatcher, the extractor and the formatter *)

Section MoreFacts.
Context {R : Runtime}.

(** ** Requests sent by the dispatcher *)

Lemma sent_call_scrape (w : world) :
  sent (call_scrape w) = [{| req_url := BASE_URL; req_params := [] |}].
Proof.
  unfold call_scrape, scrape_polymarket, fetch_next_data, do_requests_get, sent.
  destruct (requests_get w BASE_URL) as [resp|e]; cbn [io_bind try_except lift fst app io_ret];
    [|reflexivity].
  destruct (raise_for_status resp) as [[]|e]; cbn [io_bind try_except lift fst app io_ret];
    [|reflexivity].
  destruct (load_next_data (body_text resp)) as [data|e];
    cbn [io_bind try_except lift fst app io_ret]; [|reflexivity].
  destruct (extract_markets data) as [results|e];
    cbn [io_bind try_except lift fst app io_ret]; [|reflexivity].
  destruct (json_dumps (PList results)); reflexivity.
Qed.

Lemma call_headlines_not_dict (w : world) (arguments : pyval) :
  is_dict arguments = false ->
  call_headlines w arguments = ([], Raise (no_attribute arguments "get")).
Proof. destruct arguments; simpl; intros H; try discriminate H; reflexivity. Qed.

Lemma call_everything_not_dict (w : world) (arguments : pyval) :
  is_dict arguments = false ->
  call_everything w arguments = ([], Raise (no_attribute arguments "get")).
Proof. destruct arguments; simpl; intros H; try discriminate H; reflexivity. Qed.

(** The "headlines" branch on a dictionary of arguments, in full. *)
Lemma call_headlines_dict (w : world) (d : pydict) :
  call_headlines w (PDict d)
    = if negb (truthy (getenv_value w "NEWSAPI_KEY")) then
        ([], Ok [text_content "Missing NEWSAPI_KEY in environment."])
      else
        let params := [("q", get_or d "query" PNone);
                       ("language", get_or d "language" (PStr "en"));
                       ("pageSize", get_or d "pageSize" (PInt 5));
                       ("apiKey", getenv_value w "NEWSAPI_KEY")] in
        ([{| req_url := "https://newsapi.org/v2/top-headlines";
             req_params := params |}],
         match httpx_get_json w "https://newsapi.org/v2/top-headlines" params with
         | Ok news_data => Ok [text_content (format_news_headlines news_data)]
         | Raise e => Raise e
         end).
Proof.
  unfold call_headlines. rewrite !py_get_dict. cbn [lift io_bind app].
  destruct (negb (truthy (getenv_value w "NEWSAPI_KEY"))); [reflexivity|].
  unfold do_httpx_get, get_or. cbn [io_bind].
  destruct (httpx_get_json w _ _); reflexivity.
Qed.

(** The "everything" branch on a dictionary of arguments: one request, then
    the formatted answer or the exception of the HTTP call. *)
Lemma call_everything_dict (w : world) (d : pydict) :
  exists params,
    copy_if_present (PDict d) "from"
      [("q", get_or d "query" PNone);
       ("apiKey", getenv_value w "NEWSAPI_KEY");
       ("sortBy", get_or d "sortBy" (PStr "popularity"));
       ("pageSize", get_or d "pageSize" (PInt 100));
       ("page", get_or d "page" (PInt 1))]
      = Ok params
    /\ exists params',
         copy_if_present (PDict d) "to" params = Ok params'
         /\ call_everything w (PDict d)
              = ([{| req_url := "https://newsapi.org/v2/everything";
                     req_params := params' |}],
                 match httpx_get_json w "https://newsapi.org/v2/everything" params' with
                 | Ok news_data => Ok [text_content (format_news_headlines news_data)]
                 | Raise e => Raise e
                 end).
Proof.
  unfold call_everything. rewrite !py_get_dict. cbn [lift io_bind app].
  fold (get_or d "query" PNone) (get_or d "sortBy" (PStr "popularity"))
       (get_or d "pageSize" (PInt 100)) (get_or d "page" (PInt 1)).
  set (params0 := [("q", _); ("apiKey", _); ("sortBy", _); ("pageSize", _); ("page", _)]).
  destruct (copy_if_present_dict d "from" params0) as (p1 & Hp1 & _).
  exists p1. split; [exact Hp1|]. rewrite Hp1. cbn [lift io_bind app].
  destruct (copy_if_present_dict d "to" p1) as (p2 & Hp2 & _).
  exists p2. split; [exact Hp2|]. rewrite Hp2. cbn [lift io_bind app].
  unfold do_httpx_get. cbn [io_bind].
  destruct (httpx_get_json w _ p2); reflexivity.
Qed.

(** X1.  Whatever the tool name and the arguments, one invocation sends at
    most one request; the scrape tool's request is the parameterless GET of
    the home page, and each news tool only ever addresses its own NewsAPI
    endpoint. *)
Theorem X1_at_most_one_request (w : world) (nm : string) (arguments : pyval) :
  List.length (sent (handle_call_tool w nm arguments)) <= 1
  /\ forall req, In req (sent (handle_call_tool w nm arguments)) ->
       (nm = "scrape-polymarket"
        /\ req = {| req_url := "https://polymarket.com"; req_params := [] |})
       \/ (nm = "get-news-headlines"
           /\ req_url req = "https://newsapi.org/v2/top-headlines")
       \/ (nm = "get-news-everything"
           /\ req_url req = "https://newsapi.org/v2/everything").
Proof.
  unfold handle_call_tool.
  destruct (String.eqb_spec nm "scrape-polymarket") as [->|_].
  { rewrite sent_call_scrape. split; [simpl; lia|].
    intros req [<-|[]]. left. split; reflexivity. }
  destruct (String.eqb_spec nm "get-news-headlines") as [->|_].
  { destruct (is_dict arguments) eqn:Hd.
    - destruct arguments; try discriminate Hd.
      rewrite call_headlines_dict.
      destruct (negb (truthy (getenv_value w "NEWSAPI_KEY"))).
      + split; [simpl; lia | intros req []].
      + split; [simpl; lia|].
        intros req [<-|[]]. right; left. split; reflexivity.
    - rewrite (call_headlines_not_dict w arguments Hd).
      split; [simpl; lia | intros req []]. }
  destruct (String.eqb_spec nm "get-news-everything") as [->|_].
  { destruct (is_dict arguments) eqn:Hd.
    - destruct arguments; try discriminate Hd.
      destruct (call_everything_dict w d) as (p1 & _ & p2 & _ & ->).
      split; [simpl; lia|].
      intros req [<-|[]]. right; right. split; reflexivity.
    - rewrite (call_everything_not_dict w arguments Hd).
      split; [simpl; lia | intros req []]. }
  split; [simpl; lia | intros req []].
Qed.

(** ** Registry and dispatcher *)

Lemma handle_unregistered (w : world) (nm : string) (arguments : pyval) :
  ~ In nm tool_names ->
  handle_call_tool w nm arguments
    = ([], Ok [text_content ("Unknown tool: " ++ nm)]).
Proof.
  intros Hnot. unfold handle_call_tool.
  destruct (String.eqb_spec nm "scrape-polymarket") as [->|_].
  { exfalso; apply Hnot; simpl; auto. }
  destruct (String.eqb_spec nm "get-news-headlines") as [->|_].
  { exfalso; apply Hnot; simpl; auto. }
  destruct (String.eqb_spec nm "get-news-everything") as [->|_].
  { exfalso; apply Hnot; simpl; auto. }
  reflexivity.
Qed.

Lemma in_tool_names_dec (nm : string) : {In nm tool_names} + {~ In nm tool_names}.
Proof. apply (in_dec string_dec). Qed.

(** X2.  The registry and the dispatcher agree on the tool names: the
    registry lists three distinct names, and a name is answered with the
    "Unknown tool" text exactly when the registry does not list it. *)
Theorem X2_registry_matches_dispatcher :
  NoDup tool_names
  /\ List.length list_tools = 3
  /\ forall (w : world) (nm : string) (arguments : pyval),
       handle_call_tool w nm arguments
         = ([], Ok [text_content ("Unknown tool: " ++ nm)])
       <-> ~ In nm tool_names.
Proof.
  split.
  { repeat constructor; simpl; intuition discriminate. }
  split; [reflexivity|].
  intros w nm arguments. split.
  - intros Hans Hin.
    assert (Hsent : sent (handle_call_tool w nm arguments) = [])
      by (rewrite Hans; reflexivity).
    simpl in Hin. destruct Hin as [<-|[<-|[<-|[]]]].
    + rewrite handle_scrape, sent_call_scrape in Hsent. discriminate Hsent.
    + change (handle_call_tool w "get-news-headlines" arguments)
        with (call_headlines w arguments) in Hans, Hsent.
      destruct (is_dict arguments) eqn:Hd.
      * destruct arguments; try discriminate Hd.
        rewrite call_headlines_dict in Hans, Hsent.
        destruct (negb (truthy (getenv_value w "NEWSAPI_KEY")));
          [discriminate Hans | discriminate Hsent].
      * rewrite (call_headlines_not_dict w arguments Hd) in Hans.
        discriminate Hans.
    + change (handle_call_tool w "get-news-everything" arguments)
        with (call_everything w arguments) in Hans, Hsent.
      destruct (is_dict arguments) eqn:Hd.
      * destruct arguments; try discriminate Hd.
        destruct (call_everything_dict w d) as (p1 & _ & p2 & _ & Hcall).
        rewrite Hcall in Hsent. discriminate Hsent.
      * rewrite (call_everything_not_dict w arguments Hd) in Hans.
        discriminate Hans.
  - apply handle_unregistered.
Qed.

(** X3.  With [NEWSAPI_KEY] unset or set to the empty string, the
    "headlines" tool answers any dictionary of arguments with the
    missing-key text and sends no request. *)
Theorem X3_headlines_without_key (w : world) (d : pydict) :
  os_getenv w "NEWSAPI_KEY" = None \/ os_getenv w "NEWSAPI_KEY" = Some "" ->
  handle_call_tool w "get-news-headlines" (PDict d)
    = ([], Ok [text_content "Missing NEWSAPI_KEY in environment."]).
Proof.
  intros Hkey. apply headlines_missing_key.
  unfold getenv_value. destruct Hkey as [-> | ->]; reflexivity.
Qed.

(** X4.  With a non-empty key the "headlines" tool sends exactly one request
    to the top-headlines endpoint, whose parameters are [q], [language],
    [pageSize] and [apiKey] in that order, with the fallbacks "en" and 5
    that the registry declares; its answer is the formatted response, and
    an exception of the HTTP call is not caught. *)
Theorem X4_headlines_request (w : world) (d : pydict) (key : string) :
  os_getenv w "NEWSAPI_KEY" = Some key ->
  key <> "" ->
  let params := [("q", get_or d "query" PNone);
                 ("language", get_or d "language" (PStr "en"));
                 ("pageSize", get_or d "pageSize" (PInt 5));
                 ("apiKey", PStr key)] in
  handle_call_tool w "get-news-headlines" (PDict d)
    = ([{| req_url := "https://newsapi.org/v2/top-headlines";
           req_params := params |}],
       match httpx_get_json w "https://newsapi.org/v2/top-headlines" params with
       | Ok news_data => Ok [text_content (format_news_headlines news_data)]
       | Raise e => Raise e
       end)
  /\ declared_default "get-news-headlines" "language" = Some (PStr "en")
  /\ declared_default "get-news-headlines" "pageSize" = Some (PInt 5).
Proof.
  intros Hkey Hne params. split; [|split; reflexivity].
  change (handle_call_tool w "get-news-headlines" (PDict d))
    with (call_headlines w (PDict d)).
  rewrite call_headlines_dict. unfold getenv_value. rewrite Hkey.
  apply String.eqb_neq in Hne. cbn [truthy]. rewrite Hne. reflexivity.
Qed.

(** ** Parameters of the "everything" request *)

Lemma dict_get_set_same (params : pydict) (k : string) (v : pyval) :
  dict_get (dict_set params k v) k = Some v.
Proof.
  induction params as [|[k0 v0] rest IH]; simpl.
  - rewrite String.eqb_refl; reflexivity.
  - destruct (String.eqb_spec k0 k) as [->|Hne]; simpl.
    + rewrite String.eqb_refl; reflexivity.
    + apply String.eqb_neq in Hne. rewrite Hne. exact IH.
Qed.

(** What the conditional copy leaves under its own key. *)
Lemma copy_if_present_own (d : pydict) (k : string) (params params' : pydict) :
  copy_if_present (PDict d) k params = Ok params' ->
  dict_get params' k
    = match dict_get d k with
      | Some x => if truthy x then Some x else dict_get params k
      | None => dict_get params k
      end.
Proof.
  unfold copy_if_present. rewrite py_get_dict. cbn [bind getitem_str].
  destruct (dict_get d k) as [x|] eqn:Hk.
  - destruct (truthy x); intros H; injection H as <-;
      [apply dict_get_set_same | reflexivity].
  - simpl. intros H; injection H as <-. reflexivity.
Qed.

Lemma copy_if_present_other (d : pydict) (k k' : string) (params params' : pydict) :
  copy_if_present (PDict d) k params = Ok params' ->
  k' <> k ->
  dict_get params' k' = dict_get params k'.
Proof.
  intros H Hne.
  destruct (copy_if_present_dict d k params) as (p & Hp & Hother & _).
  rewrite Hp in H. injection H as <-. apply Hother; exact Hne.
Qed.

(** X5.  On a dictionary of arguments the "everything" tool sends exactly
    one request to the everything endpoint and answers with the formatted
    response; an exception of the HTTP call is not caught.  The request
    holds [q], [apiKey], [sortBy], [pageSize] and [page] with the fallbacks
    "popularity", 100 and 1; [from] and [to] are copied from the arguments
    exactly when their value there is truthy; and no other key, the declared
    [language] included, is ever sent. *)
Theorem X5_everything_request (w : world) (d : pydict) :
  exists params,
    handle_call_tool w "get-news-everything" (PDict d)
      = ([{| req_url := "https://newsapi.org/v2/everything";
             req_params := params |}],
         match httpx_get_json w "https://newsapi.org/v2/everything" params with
         | Ok news_data => Ok [text_content (format_news_headlines news_data)]
         | Raise e => Raise e
         end)
    /\ dict_get params "q" = Some (get_or d "query" PNone)
    /\ dict_get params "apiKey" = Some (getenv_value w "NEWSAPI_KEY")
    /\ dict_get params "sortBy" = Some (get_or d "sortBy" (PStr "popularity"))
    /\ dict_get params "pageSize" = Some (get_or d "pageSize" (PInt 100))
    /\ dict_get params "page" = Some (get_or d "page" (PInt 1))
    /\ (forall k, k = "from" \/ k = "to" ->
          dict_get params k
            = match dict_get d k with
              | Some x => if truthy x then Some x else None
              | None => None
              end)
    /\ (forall k, ~ In k ["q"; "apiKey"; "sortBy"; "pageSize"; "page"; "from"; "to"] ->
          dict_get params k = None)
    /\ dict_get params "language" = None.
Proof.
  destruct (call_everything_dict w d) as (p1 & Hp1 & p2 & Hp2 & Hcall).
  exists p2.
  change (handle_call_tool w "get-news-everything" (PDict d))
    with (call_everything w (PDict d)).
  split; [exact Hcall|].
  assert (Hfixed : forall k, k <> "from" -> k <> "to" ->
            dict_get p2 k
              = dict_get [("q", get_or d "query" PNone);
                          ("apiKey", getenv_value w "NEWSAPI_KEY");
                          ("sortBy", get_or d "sortBy" (PStr "popularity"));
                          ("pageSize", get_or d "pageSize" (PInt 100));
                          ("page", get_or d "page" (PInt 1))] k).
  { intros k Hf Ht.
    rewrite (copy_if_present_other _ _ k _ _ Hp2 Ht).
    apply (copy_if_present_other _ _ k _ _ Hp1 Hf). }
  assert (Hother : forall k,
            ~ In k ["q"; "apiKey"; "sortBy"; "pageSize"; "page"; "from"; "to"] ->
            dict_get p2 k = None).
  { intros k Hk. rewrite Hfixed by (intros ->; apply Hk; simpl; auto 10).
    cbn [dict_get].
    repeat match goal with
           | |- context [String.eqb ?a k] =>
               destruct (String.eqb_spec a k) as [<-|_];
               [exfalso; apply Hk; simpl; auto 10|]
           end.
    reflexivity. }
  repeat split; try (rewrite Hfixed by discriminate; reflexivity).
  - intros k [-> | ->].
    + rewrite (copy_if_present_other _ _ "from" _ _ Hp2) by discriminate.
      rewrite (copy_if_present_own _ _ _ _ Hp1).
      destruct (dict_get d "from") as [x|]; [destruct (truthy x)|]; reflexivity.
    + rewrite (copy_if_present_own _ _ _ _ Hp2).
      rewrite (copy_if_present_other _ _ "to" _ _ Hp1) by discriminate.
      destruct (dict_get d "to") as [x|]; [destruct (truthy x)|]; reflexivity.
  - exact Hother.
Qed.

(** X6.  When neither [from] nor [to] has a truthy value among the arguments
    (absent, [None] or the empty string), the "everything" request carries
    exactly the five fixed parameters, in order, and nothing else. *)
Theorem X6_everything_without_dates (w : world) (d : pydict) :
  truthy (get_or d "from" PNone) = false ->
  truthy (get_or d "to" PNone) = false ->
  sent (handle_call_tool w "get-news-everything" (PDict d))
    = [{| req_url := "https://newsapi.org/v2/everything";
          req_params := [("q", get_or d "query" PNone);
                         ("apiKey", getenv_value w "NEWSAPI_KEY");
                         ("sortBy", get_or d "sortBy" (PStr "popularity"));
                         ("pageSize", get_or d "pageSize" (PInt 100));
                         ("page", get_or d "page" (PInt 1))] |}].
Proof.
  intros Hfrom Hto.
  change (handle_call_tool w "get-news-everything" (PDict d))
    with (call_everything w (PDict d)).
  destruct (call_everything_dict w d) as (p1 & Hp1 & p2 & Hp2 & ->).
  unfold copy_if_present in Hp1, Hp2. rewrite py_get_dict in Hp1, Hp2.
  fold (get_or d "from" PNone) in Hp1. fold (get_or d "to" PNone) in Hp2.
  cbn [bind] in Hp1, Hp2. rewrite Hfrom in Hp1. rewrite Hto in Hp2.
  injection Hp1 as <-. injection Hp2 as <-. reflexivity.
Qed.

(** X7.  The scrape tool's answer and request depend only on what the home
    page request returns: the arguments, the environment and the news API
    play no part. *)
Theorem X7_scrape_reads_only_the_home_page (w w' : world) (arguments arguments' : pyval) :
  requests_get w "https://polymarket.com" = requests_get w' "https://polymarket.com" ->
  handle_call_tool w "scrape-polymarket" arguments
    = handle_call_tool w' "scrape-polymarket" arguments'.
Proof.
  intros H. rewrite !handle_scrape.
  unfold call_scrape, scrape_polymarket, fetch_next_data, do_requests_get.
  change BASE_URL with "https://polymarket.com". rewrite H. reflexivity.
Qed.

(** ** The extractor: cap, order and shape *)

(** X8.  Only the first 20 events matter: two pages whose events agree on
    their first 20 entries give the same result, whatever follows, and a
    returned batch never has more than 20 entries. *)
Theorem X8_only_first_twenty (data data' : pyval) (events events' : list pyval) :
  events_of data = Ok (PList events) ->
  events_of data' = Ok (PList events') ->
  firstn 20 events = firstn 20 events' ->
  extract_markets data = extract_markets data'
  /\ forall results, extract_markets data = Ok results ->
       List.length results = Nat.min 20 (List.length events)
       /\ List.length results <= 20.
Proof.
  intros H H' Hsame.
  rewrite (extract_markets_list _ _ H), (extract_markets_list _ _ H'), Hsame.
  split; [reflexivity|].
  intros results Hres. rewrite <- Hsame in Hres.
  rewrite (mapM_length _ _ _ Hres), length_firstn. split; [reflexivity | lia].
Qed.

(** X9.  A page with at most 20 events, each of which can be summarised,
    yields one summary per event, in the order of the events; an empty
    events list yields the empty batch. *)
Theorem X9_short_batch (data : pyval) (events : list pyval) :
  events_of data = Ok (PList events) ->
  List.length events <= 20 ->
  (forall ev, In ev events -> exists s, summarise_event ev = Ok s) ->
  exists results,
    extract_markets data = Ok results
    /\ List.length results = List.length events
    /\ Forall2 (fun ev s => summarise_event ev = Ok s) events results
    /\ (events = [] -> results = []).
Proof.
  intros Hevents Hlen Hgood.
  rewrite (extract_markets_list _ _ Hevents).
  rewrite (firstn_all2 (n := 20) events) by exact Hlen.
  destruct (mapM_total summarise_event events Hgood) as [results Hres].
  exists results. split; [exact Hres|]. split; [|split].
  - apply (mapM_length _ _ _ Hres).
  - apply mapM_Forall2; exact Hres.
  - intros ->. simpl in Hres. injection Hres as <-. reflexivity.
Qed.

Lemma Forall2_Forall_right {A B : Type} (P : A -> B -> Prop) (Q : B -> Prop)
    (l : list A) (r : list B) :
  (forall x y, P x y -> Q y) -> Forall2 P l r -> Forall Q r.
Proof.
  intros HPQ H; induction H as [|x y l r Hxy _ IH]; constructor;
    [exact (HPQ x y Hxy) | exact IH].
Qed.

(** Every item the comprehension builds is an outcome/probability pair. *)
Lemma outcome_probs_shape (outcomes prices : pyval) (probs : list pyval) :
  outcome_probs outcomes prices = Ok probs ->
  Forall (fun item => exists o p, item = outcome_prob (o, p)) probs.
Proof.
  unfold outcome_probs. intros H.
  apply bind_ok_inv in H as (n & _ & H).
  apply bind_ok_inv in H as (m & _ & H).
  apply mapM_Forall2 in H.
  refine (Forall2_Forall_right _ _ _ _ _ H).
  intros i item Hi.
  apply bind_ok_inv in Hi as (o & _ & Hi).
  apply bind_ok_inv in Hi as (p & _ & Hi).
  injection Hi as <-. exists o, p. reflexivity.
Qed.

(** X10.  Every summary the loop produces is a dictionary with exactly the
    keys [title], [url] and [outcomes], in that order: the title is the
    event's [title] or the empty string, the URL is the base URL followed by
    "/market/" and the event's [slug] (empty when missing), and every entry
    of [outcomes] is an outcome/probability pair. *)
Theorem X10_summary_shape (event summary : pyval) :
  summarise_event event = Ok summary ->
  exists d probs,
    event = PDict d
    /\ summary
         = PDict [("title", get_or d "title" (PStr ""));
                  ("url", PStr ("https://polymarket.com/market/"
                                  ++ py_str (get_or d "slug" (PStr ""))));
                  ("outcomes", PList probs)]
    /\ Forall (fun item =>
                 exists o p, item = PDict [("outcome", o); ("probability", p)])
         probs.
Proof.
  unfold summarise_event. intros H.
  destruct event as [| | | | | |d]; try discriminate H.
  rewrite !py_get_dict in H. cbn [bind] in H.
  apply bind_ok_inv in H as (market_info & _ & H).
  apply bind_ok_inv in H as (outcomes & _ & H).
  apply bind_ok_inv in H as (prices & _ & H).
  apply bind_ok_inv in H as (probs & Hprobs & H).
  injection H as <-.
  exists d, probs. split; [reflexivity|]. split; [reflexivity|].
  exact (outcome_probs_shape _ _ _ Hprobs).
Qed.

(** ** The extractor: failures along the path *)

Lemma bind_raise_inv {A B : Type} (m : result A) (f : A -> result B) (e : exn) :
  bind m f = Raise e -> m = Raise e \/ exists a, m = Ok a /\ f a = Raise e.
Proof.
  destruct m as [a|e0]; simpl; intros H.
  - right. exists a. split; [reflexivity | exact H].
  - left. injection H as ->. reflexivity.
Qed.

Lemma getitem_str_raise (v : pyval) (k : string) (e : exn) :
  getitem_str v k = Raise e -> indexing_error e.
Proof.
  unfold indexing_error, getitem_str, not_subscriptable.
  destruct v as [| | | | | |d]; try destruct (dict_get d k);
    intros H; try discriminate H; injection H as <-; eauto.
Qed.

Lemma getitem_int_raise (v : pyval) (i : nat) (e : exn) :
  getitem_int v i = Raise e -> indexing_error e.
Proof.
  unfold indexing_error, getitem_int, not_subscriptable.
  destruct v as [| | | |s|l|d];
    try destruct (nth_error (chars s) i); try destruct (nth_error l i);
    intros H; try discriminate H; injection H as <-; eauto.
Qed.

(** X11.  When the walk down to the events fails, it fails with a
    [KeyError], an [IndexError] or a [TypeError]; the extractor raises that
    very exception, before any event is looked at. *)
Theorem X11_path_failure (data : pyval) (e : exn) :
  events_of data = Raise e ->
  indexing_error e /\ extract_markets data = Raise e.
Proof.
  intros H. split.
  - unfold events_of in H.
    repeat match type of H with
           | bind _ _ = Raise _ =>
               apply bind_raise_inv in H as [H | (? & _ & H)];
               [first [exact (getitem_str_raise _ _ _ H)
                      | exact (getitem_int_raise _ _ _ H)] |]
           end.
    exact (getitem_str_raise _ _ _ H).
  - unfold extract_markets. rewrite H. reflexivity.
Qed.

(** ** The formatter: remaining cases *)

(** X12.  A non-empty response without a [status] field is treated as an
    error response, whatever else it holds: the result is "NewsAPI error: "
    followed by the message, or by "Unknown error". *)
Theorem X12_missing_status_is_error (d : pydict) :
  d <> [] ->
  dict_get d "status" = None ->
  format_news_headlines (PDict d)
    = "NewsAPI error: " ++ py_str (get_or d "message" (PStr "Unknown error")).
Proof.
  intros Hne Hst. unfold format_news_headlines, format_body.
  assert (Ht : truthy (PDict d) = true) by (destruct d; [congruence | reflexivity]).
  rewrite Ht. cbn [negb is_dict orb].
  rewrite !py_get_dict, Hst. reflexivity.
Qed.

(** X13.  With status "ok", a missing [articles] field and any falsy value
    of it ([None], the empty list, the empty string, zero) give
    "No news articles found.". *)
Theorem X13_no_articles (d : pydict) :
  dict_get d "status" = Some (PStr "ok") ->
  truthy (get_or d "articles" (PList [])) = false ->
  format_news_headlines (PDict d) = "No news articles found.".
Proof.
  intros Hst Hart. unfold format_news_headlines.
  rewrite (format_body_status d _ Hst), py_get_dict.
  fold (get_or d "articles" (PList [])).
  change (eq_str (PStr "ok") "ok") with true. cbn [negb bind].
  rewrite Hart. reflexivity.
Qed.

Lemma format_article_raise_shape (article : pyval) (e : exn) :
  format_article article = Raise e ->
  exists v, is_dict v = false /\ e = no_attribute v "get".
Proof.
  unfold format_article.
  destruct article as [| | | | | |d]; simpl;
    try (intros H; injection H as <-; eexists; split; [|reflexivity]; reflexivity).
  destruct (match dict_get d "source" with Some x => x | None => PDict [] end)
    as [| | | | | |src]; simpl;
    try (intros H; injection H as <-; eexists; split; [|reflexivity]; reflexivity).
  discriminate.
Qed.

Lemma article_not_ok_raises (article : pyval) :
  article_ok article = false -> exists e, format_article article = Raise e.
Proof.
  unfold article_ok, format_article.
  destruct article as [| | | | | |d]; simpl; try (intros _; eexists; reflexivity).
  destruct (dict_get d "source") as [src|]; [|discriminate].
  destruct src; simpl; intros H; try discriminate H; eexists; reflexivity.
Qed.

Lemma article_ok_formats (article : pyval) :
  article_ok article = true ->
  exists block,
    format_article article = Ok block /\ String.prefix "Title: " block = true.
Proof.
  unfold article_ok, format_article.
  destruct article as [| | | | | |d]; try discriminate.
  rewrite !py_get_dict. cbn [bind].
  destruct (dict_get d "source") as [src|].
  - destruct src; cbn [is_dict]; intros H; try discriminate H.
    cbn [py_get bind]. eexists. split; [reflexivity | apply prefix_app].
  - intros _. cbn [py_get bind]. eexists. split; [reflexivity | apply prefix_app].
Qed.

(** X14.  One article that cannot be rendered (it is no dictionary, or its
    [source] is present but no dictionary, for instance [null]) spoils the
    whole listing: the result is the error text of an [AttributeError] on
    [.get], and no article is shown. *)
Theorem X14_bad_article_spoils_listing (d : pydict) (items : list pyval)
    (article : pyval) :
  dict_get d "status" = Some (PStr "ok") ->
  dict_get d "articles" = Some (PList items) ->
  In article items ->
  article_ok article = false ->
  exists v,
    is_dict v = false
    /\ format_news_headlines (PDict d)
         = "Error formatting news: '" ++ type_name v
             ++ "' object has no attribute 'get'".
Proof.
  intros Hst Hart Hin Hbad.
  destruct (article_not_ok_raises article Hbad) as [e0 He0].
  destruct (mapM_raises format_article items article e0 Hin He0) as [e He].
  destruct (mapM_raise_inv _ _ _ He) as (a & _ & Ha).
  destruct (format_article_raise_shape a e Ha) as (v & Hv & ->).
  exists v. split; [exact Hv|].
  unfold format_news_headlines.
  rewrite (format_body_status d _ Hst), py_get_dict, Hart.
  change (eq_str (PStr "ok") "ok") with true. cbn [negb bind].
  destruct items as [|i0 items']; [destruct Hin|].
  cbn [truthy negb py_iter bind]. rewrite He. reflexivity.
Qed.

(** X15.  With status "ok" and a non-empty list of renderable articles the
    result is the header followed by one block per article, in the order of
    the articles and joined by newlines; every block starts with
    "Title: ". *)
Theorem X15_listing (d : pydict) (items : list pyval) :
  dict_get d "status" = Some (PStr "ok") ->
  dict_get d "articles" = Some (PList items) ->
  items <> [] ->
  forallb article_ok items = true ->
  exists blocks,
    format_news_headlines (PDict d)
      = String.concat nl (("Top News Headlines:" ++ nl) :: blocks)
    /\ Forall2 (fun article block =>
                  format_article article = Ok block
                  /\ String.prefix "Title: " block = true)
         items blocks.
Proof.
  intros Hst Hart Hne Hok.
  assert (Hblocks : exists blocks,
            mapM format_article items = Ok blocks
            /\ Forall2 (fun article block =>
                          format_article article = Ok block
                          /\ String.prefix "Title: " block = true) items blocks).
  { clear Hart Hne. induction items as [|a items IH].
    - exists []. split; [reflexivity | constructor].
    - simpl in Hok. apply andb_prop in Hok as [Ha Hrest].
      destruct (article_ok_formats a Ha) as (b & Hb & Hpre).
      destruct (IH Hrest) as (bs & Hbs & Hall).
      exists (b :: bs). split.
      + simpl. rewrite Hb, Hbs. reflexivity.
      + constructor; [split; assumption | exact Hall]. }
  destruct Hblocks as (blocks & Hmap & Hall).
  exists blocks. split; [|exact Hall].
  unfold format_news_headlines.
  rewrite (format_body_status d _ Hst), py_get_dict, Hart.
  change (eq_str (PStr "ok") "ok") with true. cbn [negb bind].
  destruct items as [|i0 items']; [congruence|].
  cbn [truthy negb py_iter bind]. rewrite Hmap. reflexivity.
Qed.

(** ** Which arguments the news tools read *)

(** X16.  The "headlines" tool reads only [query], [language] and
    [pageSize]: two argument dictionaries that agree on these three keys
    get the same request and the same answer. *)
Theorem X16_headlines_reads_three_arguments (w : world) (d d' : pydict) :
  (forall k, In k ["query"; "language"; "pageSize"] -> dict_get d k = dict_get d' k) ->
  handle_call_tool w "get-news-headlines" (PDict d)
    = handle_call_tool w "get-news-headlines" (PDict d').
Proof.
  intros H.
  change (call_headlines w (PDict d) = call_headlines w (PDict d')).
  rewrite !call_headlines_dict. unfold get_or.
  rewrite (H "query"), (H "language"), (H "pageSize") by (simpl; auto).
  reflexivity.
Qed.

(** X17.  The "everything" tool reads only [query], [sortBy], [pageSize],
    [page], [from] and [to]: two argument dictionaries that agree on these
    six keys get the same request and the same answer, whatever they hold
    under [language] or any other key. *)
Theorem X17_everything_reads_six_arguments (w : world) (d d' : pydict) :
  (forall k, In k ["query"; "sortBy"; "pageSize"; "page"; "from"; "to"] ->
     dict_get d k = dict_get d' k) ->
  handle_call_tool w "get-news-everything" (PDict d)
    = handle_call_tool w "get-news-everything" (PDict d').
Proof.
  intros H.
  change (call_everything w (PDict d) = call_everything w (PDict d')).
  unfold call_everything, copy_if_present.
  rewrite !py_get_dict. cbn [getitem_str].
  rewrite (H "query"), (H "sortBy"), (H "pageSize"), (H "page"),
    (H "from"), (H "to") by (simpl; auto 10).
  reflexivity.
Qed.

(** ** The scrape tool on success *)

(** X18.  When the extractor returns its list of summaries, the scrape
    tool's answer is the single text item holding [json.dumps] of that
    list; should the serialisation itself raise, that exception is turned
    into the error text as well. *)
Theorem X18_scrape_success (w : world) (arguments : pyval) (results : list pyval) :
  outcome (scrape_polymarket w) = Ok results ->
  outcome (handle_call_tool w "scrape-polymarket" arguments)
    = match json_dumps (PList results) with
      | Ok dumped => Ok [text_content dumped]
      | Raise e => Ok [text_content ("Error scraping Polymarket: " ++ exn_str e)]
      end.
Proof.
  rewrite handle_scrape. unfold call_scrape, outcome.
  destruct (scrape_polymarket w) as [log [r|e]]; simpl; intros H;
    [injection H as -> | discriminate H].
  destruct (json_dumps (PList results)); reflexivity.
Qed.

End MoreFacts.

(** ** The further properties on concrete inputs *)

Lemma X3_witness :
  @handle_call_tool plain_runtime world_empty_key "get-news-headlines"
     (PDict [("query", PStr "bitcoin")])
    = ([], Ok [text_content "Missing NEWSAPI_KEY in environment."]).
Proof.
  apply (@X3_headlines_without_key plain_runtime world_empty_key
           [("query", PStr "bitcoin")]).
  right. reflexivity.
Defined.

Lemma X4_witness :
  @handle_call_tool plain_runtime world_with_key "get-news-headlines"
     (PDict [("query", PStr "bitcoin")])
    = ([{| req_url := "https://newsapi.org/v2/top-headlines";
           req_params := [("q", PStr "bitcoin"); ("language", PStr "en");
                          ("pageSize", PInt 5); ("apiKey", PStr "secret")] |}],
       Ok [text_content "No news articles found."])
  /\ declared_default "get-news-headlines" "language" = Some (PStr "en")
  /\ declared_default "get-news-headlines" "pageSize" = Some (PInt 5).
Proof.
  apply (@X4_headlines_request plain_runtime world_with_key
           [("query", PStr "bitcoin")] "secret").
  - reflexivity.
  - discriminate.
Defined.

Lemma X6_witness :
  sent (@handle_call_tool plain_runtime world_with_key "get-news-everything"
          (PDict [("query", PStr "bitcoin"); ("from", PStr ""); ("to", PNone)]))
    = [{| req_url := "https://newsapi.org/v2/everything";
          req_params := [("q", PStr "bitcoin"); ("apiKey", PStr "secret");
                         ("sortBy", PStr "popularity"); ("pageSize", PInt 100);
                         ("page", PInt 1)] |}].
Proof.
  apply (@X6_everything_without_dates plain_runtime world_with_key
           [("query", PStr "bitcoin"); ("from", PStr ""); ("to", PNone)]);
    reflexivity.
Defined.

Lemma X7_witness :
  @handle_call_tool bare_page_runtime world_without_key "scrape-polymarket" PNone
    = @handle_call_tool bare_page_runtime world_with_key "scrape-polymarket"
        (PDict [("query", PStr "bitcoin")]).
Proof.
  apply (@X7_scrape_reads_only_the_home_page bare_page_runtime
           world_without_key world_with_key).
  reflexivity.
Defined.

Lemma X8_witness :
  @extract_markets plain_runtime (next_data events_20_then_bad)
    = @extract_markets plain_runtime (next_data (repeat event_yes_no 20))
  /\ forall results,
       @extract_markets plain_runtime (next_data events_20_then_bad) = Ok results ->
       List.length results = Nat.min 20 (List.length events_20_then_bad)
       /\ List.length results <= 20.
Proof.
  apply (@X8_only_first_twenty plain_runtime (next_data events_20_then_bad)
           (next_data (repeat event_yes_no 20))
           events_20_then_bad (repeat event_yes_no 20)); reflexivity.
Defined.

Lemma X9_witness :
  exists results,
    @extract_markets plain_runtime (next_data [event_yes_no; event_three_two])
      = Ok results
    /\ List.length results = 2
    /\ Forall2 (fun ev s => @summarise_event plain_runtime ev = Ok s)
         [event_yes_no; event_three_two] results
    /\ ([event_yes_no; event_three_two] = [] -> results = []).
Proof.
  apply (@X9_short_batch plain_runtime (next_data [event_yes_no; event_three_two])
           [event_yes_no; event_three_two]).
  - reflexivity.
  - simpl. lia.
  - intros ev [<-|[<-|[]]]; eexists; reflexivity.
Defined.

Lemma X10_witness :
  exists d probs,
    event_yes_no = PDict d
    /\ summary_yes_no
         = PDict [("title", get_or d "title" (PStr ""));
                  ("url", PStr ("https://polymarket.com/market/"
                                  ++ @py_str plain_runtime (get_or d "slug" (PStr ""))));
                  ("outcomes", PList probs)]
    /\ Forall (fun item =>
                 exists o p, item = PDict [("outcome", o); ("probability", p)])
         probs.
Proof.
  apply (@X10_summary_shape plain_runtime event_yes_no summary_yes_no).
  reflexivity.
Defined.

Lemma X11_witness :
  indexing_error (KeyError (PStr "props"))
  /\ @extract_markets plain_runtime (PDict [("page", PInt 1)])
       = Raise (KeyError (PStr "props")).
Proof.
  apply (@X11_path_failure plain_runtime (PDict [("page", PInt 1)])
           (KeyError (PStr "props"))).
  reflexivity.
Defined.

Lemma X12_witness :
  @format_news_headlines plain_runtime (PDict [("articles", PList [article_full])])
    = "NewsAPI error: Unknown error".
Proof.
  apply (@X12_missing_status_is_error plain_runtime
           [("articles", PList [article_full])]).
  - discriminate.
  - reflexivity.
Defined.

Lemma X13_witness :
  @format_news_headlines plain_runtime
     (PDict [("status", PStr "ok"); ("articles", PNone)])
    = "No news articles found.".
Proof.
  apply (@X13_no_articles plain_runtime
           [("status", PStr "ok"); ("articles", PNone)]); reflexivity.
Defined.

Lemma X14_witness :
  exists v,
    is_dict v = false
    /\ @format_news_headlines plain_runtime
         (PDict [("status", PStr "ok");
                 ("articles", PList [article_full; article_null_source])])
       = "Error formatting news: '" ++ type_name v
           ++ "' object has no attribute 'get'".
Proof.
  apply (@X14_bad_article_spoils_listing plain_runtime
           [("status", PStr "ok");
            ("articles", PList [article_full; article_null_source])]
           [article_full; article_null_source] article_null_source).
  - reflexivity.
  - reflexivity.
  - simpl. right. left. reflexivity.
  - reflexivity.
Defined.

Lemma X15_witness :
  exists blocks,
    @format_news_headlines plain_runtime
       (PDict [("status", PStr "ok");
               ("articles", PList [article_full; PDict []])])
      = String.concat nl (("Top News Headlines:" ++ nl) :: blocks)
    /\ Forall2 (fun article block =>
                  @format_article plain_runtime article = Ok block
                  /\ String.prefix "Title: " block = true)
         [article_full; PDict []] blocks.
Proof.
  apply (@X15_listing plain_runtime
           [("status", PStr "ok"); ("articles", PList [article_full; PDict []])]
           [article_full; PDict []]).
  - reflexivity.
  - reflexivity.
  - discriminate.
  - reflexivity.
Defined.

Lemma X16_witness :
  @handle_call_tool plain_runtime world_with_key "get-news-headlines"
     (PDict [("query", PStr "bitcoin"); ("sortBy", PStr "relevancy")])
    = @handle_call_tool plain_runtime world_with_key "get-news-headlines"
        (PDict [("query", PStr "bitcoin")]).
Proof.
  apply (@X16_headlines_reads_three_arguments plain_runtime world_with_key
           [("query", PStr "bitcoin"); ("sortBy", PStr "relevancy")]
           [("query", PStr "bitcoin")]).
  intros k [<-|[<-|[<-|[]]]]; reflexivity.
Defined.

Lemma X17_witness :
  @handle_call_tool plain_runtime world_with_key "get-news-everything"
     (PDict [("query", PStr "bitcoin"); ("language", PStr "fr")])
    = @handle_call_tool plain_runtime world_with_key "get-news-everything"
        (PDict [("query", PStr "bitcoin")]).
Proof.
  apply (@X17_everything_reads_six_arguments plain_runtime world_with_key
           [("query", PStr "bitcoin"); ("language", PStr "fr")]
           [("query", PStr "bitcoin")]).
  intros k [<-|[<-|[<-|[<-|[<-|[<-|[]]]]]]]; reflexivity.
Defined.

Lemma X18_witness :
  outcome (@handle_call_tool (page_runtime [event_yes_no]) world_without_key
             "scrape-polymarket" PNone)
    = Ok [text_content "[...]"].
Proof.
  apply (@X18_scrape_success (page_runtime [event_yes_no]) world_without_key
           PNone [summary_yes_no]).
  reflexivity.
Defined.
